(** * The WiZ bulb controller and its tool server

    A shallow embedding of [smart-bulb/wiz_bulb_controller.py] (the UDP
    command channel, the device controller and the discovery scan) and of
    [smart-bulb/smart_bulb_server.py] (the tool functions built on the
    controller), followed by the properties of the design document stated
    and settled on that embedding.

    Python code is read as a computation over an explicit program state
    (sockets created and not yet closed, datagrams put on the wire, lines
    printed) that either
    returns a value or raises an exception.  The network and the [nmap]
    subprocess are the environment: they are arguments of the model. *)

From Stdlib Require Import ZArith String Ascii List Floats.PrimFloat.
From stdpp Require Import gmap strings list fin_maps pretty.

#[local] Set Warnings "-register-all".
#[local] Open Scope string_scope.
#[local] Open Scope Z_scope.

(** ** Python values *)

(** What [json.loads] produces and what the code passes around: [None],
    booleans, integers, floats, strings, lists and dictionaries with string
    keys. *)
Inductive json : Type :=
| JNull
| JBool (b : bool)
| JInt (z : Z)
| JFloat (f : float)
| JStr (s : string)
| JList (l : list json)
| JDict (d : gmap string json).

(** [bool(v)], the truth value Python gives an object in [if] and [and]. *)
Definition truthy (v : json) : bool :=
  match v with
  | JNull => false
  | JBool b => b
  | JInt z => negb (Z.eqb z 0)
  | JFloat f => negb (PrimFloat.eqb f 0%float)
  | JStr s => negb (String.eqb s "")
  | JList l => match l with [] => false | _ :: _ => true end
  | JDict d => negb (Nat.eqb (size d) 0)
  end.

(** [type(v).__name__], as it appears in error messages. *)
Definition type_name (v : json) : string :=
  match v with
  | JNull => "NoneType"
  | JBool _ => "bool"
  | JInt _ => "int"
  | JFloat _ => "float"
  | JStr _ => "str"
  | JList _ => "list"
  | JDict _ => "dict"
  end.

(** The exceptions the code can meet.  All of them derive from
    [Exception]; [socket_timeout] is [socket.timeout]. *)
Inductive exn : Type :=
| ValueError (msg : string)
| AttributeError (msg : string)
| KeyError (key : string)
| TypeError (msg : string)
| socket_timeout
| OSError (msg : string)
| UnicodeDecodeError (msg : string)
| JSONDecodeError (msg : string)
| TimeoutExpired
| FileNotFoundError (msg : string)
| OtherException (name msg : string).

(** An f-string is kept as its template: the literal pieces and the values
    interpolated between them.  [render] gives the text for the values
    whose [str()] is fixed by this model. *)
Inductive part : Type :=
| Lit (s : string)
| Fmt (v : json)
| FmtExn (e : exn).

Definition fstring := list part.

(** A value stored in a dictionary a tool returns: an object, or the
    string built by an f-string. *)
Inductive pyval : Type :=
| PVal (v : json)
| PStr (f : fstring).

Definition str_of_json (v : json) : option string :=
  match v with
  | JNull => Some "None"
  | JBool true => Some "True"
  | JBool false => Some "False"
  | JInt z => Some (pretty z)
  | JStr s => Some s
  | JFloat _ | JList _ | JDict _ => None
  end.

Definition str_of_exn (e : exn) : option string :=
  match e with
  | ValueError msg | AttributeError msg | TypeError msg | OSError msg => Some msg
  | socket_timeout => Some "timed out"
  | _ => None
  end.

Definition str_of_part (p : part) : option string :=
  match p with
  | Lit s => Some s
  | Fmt v => str_of_json v
  | FmtExn e => str_of_exn e
  end.

Fixpoint render (f : fstring) : option string :=
  match f with
  | [] => Some ""
  | p :: f' =>
      match str_of_part p, render f' with
      | Some s, Some t => Some (s ++ t)
      | _, _ => None
      end
  end.

(** ** Computations: state, results and exceptions *)

Definition address : Type := string * Z.

(** The bytes of a datagram, represented by the JSON document they encode
    when they encode one, and otherwise by the raw bytes together with the
    exception [data.decode('utf-8')] or [json.loads] raises on them. *)
Inductive payload : Type :=
| Doc (j : json)
| Raw (bytes : string) (err : exn).

Record socket_state : Type := {
  so_timeout : option float;
  so_sent : list (payload * address)
}.

Record state : Type := {
  created : nat;                       (* sockets requested so far *)
  sockets : gmap nat socket_state;     (* sockets created and not yet closed by [close] *)
  wire : list (payload * address);     (* datagrams sent, oldest first *)
  stdout : list fstring                (* lines printed, oldest first *)
}.

Definition initial_state : state :=
  {| created := 0; sockets := ∅; wire := []; stdout := [] |}.

Inductive result (A : Type) : Type :=
| Ret (a : A)
| Raise (e : exn).
Arguments Ret {A} a.
Arguments Raise {A} e.

Definition M (A : Type) : Type := state -> result A * state.

Definition ret {A} (a : A) : M A := fun s => (Ret a, s).
Definition raise {A} (e : exn) : M A := fun s => (Raise e, s).

Definition bind {A B} (m : M A) (k : A -> M B) : M B :=
  fun s =>
    match m s with
    | (Ret a, s') => k a s'
    | (Raise e, s') => (Raise e, s')
    end.

(** [try: m  except Exception as e: h e]. *)
Definition try_except {A} (m : M A) (h : exn -> M A) : M A :=
  fun s =>
    match m s with
    | (Ret a, s') => (Ret a, s')
    | (Raise e, s') => h e s'
    end.

Definition lift {A} (r : result A) : M A := fun s => (r, s).

Declare Scope py_scope.
Delimit Scope py_scope with py.
Notation "x <- c ;; k" := (bind c (fun x => k))
  (at level 100, c at next level, right associativity) : py_scope.
Notation "c ;; k" := (bind c (fun _ => k))
  (at level 100, right associativity) : py_scope.
#[local] Open Scope py_scope.

Definition print (line : fstring) : M unit :=
  fun s =>
    (Ret tt, {| created := created s; sockets := sockets s; wire := wire s;
                stdout := stdout s ++ [line] |}).

(** ** Operations on Python objects *)

(** [obj.get(key, default)]: only dictionaries have the method. *)
Definition py_get (obj : json) (key : string) (default : json) : result json :=
  match obj with
  | JDict d =>
      match d !! key with
      | Some v => Ret v
      | None => Ret default
      end
  | _ =>
      Raise (AttributeError
               ("'" ++ type_name obj ++ "' object has no attribute 'get'"))
  end.

(** [obj[key]] for a string [key]. *)
Definition py_getitem (obj : json) (key : string) : result json :=
  match obj with
  | JDict d =>
      match d !! key with
      | Some v => Ret v
      | None => Raise (KeyError key)
      end
  | JStr _ => Raise (TypeError "string indices must be integers, not 'str'")
  | JList _ => Raise (TypeError "list indices must be integers or slices, not str")
  | _ => Raise (TypeError ("'" ++ type_name obj ++ "' object is not subscriptable"))
  end.

Definition is_str (key : string) (v : json) : bool :=
  match v with
  | JStr s => String.eqb s key
  | _ => false
  end.

(** [key in obj] for a string [key]. *)
Definition py_contains (key : string) (obj : json) : result bool :=
  match obj with
  | JDict d => Ret (bool_decide (is_Some (d !! key)))
  | JList l => Ret (existsb (is_str key) l)
  | JStr s =>
      Ret (match String.index 0 key s with Some _ => true | None => false end)
  | _ => Raise (TypeError ("argument of type '" ++ type_name obj ++ "' is not iterable"))
  end.

(** ** The network *)

(** The environment of the controller.  Sockets are named by the order in
    which they are requested.  [net_socket fd] is the error raised when
    socket [fd] is created or configured, if any; [net_sendto] the error
    raised by [sendto], if any; [net_recvfrom fd so bufsize] is what
    [recvfrom] does on socket [fd], given its timeout and what was sent
    from it: it raises ([socket_timeout] when no datagram arrives in time)
    or returns the datagram received, cut to [bufsize] bytes. *)
Record network : Type := {
  net_socket : nat -> option exn;
  net_sendto : nat -> payload -> address -> option exn;
  net_recvfrom : nat -> socket_state -> Z -> exn + payload
}.

Definition set_sockets (s : state) (created' : nat)
    (sockets' : gmap nat socket_state) : state :=
  {| created := created'; sockets := sockets'; wire := wire s;
     stdout := stdout s |}.

Definition bad_descriptor : exn := OSError "[Errno 9] Bad file descriptor".

Section Controller.

Variable net : network.

(** [socket.socket(socket.AF_INET, socket.SOCK_DGRAM)] *)
Definition socket_socket : M nat :=
  fun s =>
    let fd := created s in
    match net_socket net fd with
    | Some e => (Raise e, set_sockets s (S fd) (sockets s))
    | None =>
        (Ret fd,
         set_sockets s (S fd)
           (<[fd := {| so_timeout := None; so_sent := [] |}]> (sockets s)))
    end.

(** [sock.settimeout(t)] *)
Definition settimeout (sock : nat) (t : float) : M unit :=
  fun s =>
    match sockets s !! sock with
    | None => (Raise bad_descriptor, s)
    | Some so =>
        (Ret tt,
         set_sockets s (created s)
           (<[sock := {| so_timeout := Some t; so_sent := so_sent so |}]>
              (sockets s)))
    end.

(** [sock.sendto(message, addr)] *)
Definition sendto (sock : nat) (message : payload) (addr : address) : M unit :=
  fun s =>
    match sockets s !! sock with
    | None => (Raise bad_descriptor, s)
    | Some so =>
        match net_sendto net sock message addr with
        | Some e => (Raise e, s)
        | None =>
            (Ret tt,
             {| created := created s;
                sockets :=
                  <[sock := {| so_timeout := so_timeout so;
                               so_sent := so_sent so ++ [(message, addr)] |}]>
                    (sockets s);
                wire := wire s ++ [(message, addr)];
                stdout := stdout s |})
        end
    end.

(** [data, _ = sock.recvfrom(bufsize)] *)
Definition recvfrom (sock : nat) (bufsize : Z) : M payload :=
  fun s =>
    match sockets s !! sock with
    | None => (Raise bad_descriptor, s)
    | Some so =>
        match net_recvfrom net sock so bufsize with
        | inl e => (Raise e, s)
        | inr data => (Ret data, s)
        end
    end.

(** [sock.close()] *)
Definition close (sock : nat) : M unit :=
  fun s => (Ret tt, set_sockets s (created s) (delete sock (sockets s))).

(** [json.dumps(command).encode('utf-8')] *)
Definition json_dumps (command : json) : payload := Doc command.

(** [json.loads(data.decode('utf-8'))] *)
Definition json_loads (data : payload) : result json :=
  match data with
  | Doc j => Ret j
  | Raw _ err => Raise err
  end.

(** *** class WizBulbController *)

Record WizBulbController : Type := {
  bulb_ip : string;
  port : Z;
  timeout : float;
  socket : option nat
}.

Definition default_port : Z := 38899.
Definition default_timeout : float := 2.0%float.

(** [WizBulbController.__init__] *)
Definition init (bulb_ip : string) (port : Z) (timeout : float)
    : WizBulbController :=
  {| bulb_ip := bulb_ip; port := port; timeout := timeout; socket := None |}.

Definition _send_command (self : WizBulbController) (command : json) : M json :=
  try_except
    (sock <- socket_socket ;;
     settimeout sock (timeout self) ;;
     let message := json_dumps command in
     sendto sock message (bulb_ip self, port self) ;;
     data <- recvfrom sock 2048 ;;
     response <- lift (json_loads data) ;;
     close sock ;;
     ret response)
    (fun e =>
       match e with
       | socket_timeout =>
           print [Lit "Timeout: No response from bulb at ";
                  Fmt (JStr (bulb_ip self))] ;;
           ret JNull
       | _ =>
           print [Lit "Error communicating with bulb: "; FmtExn e] ;;
           ret JNull
       end).

(** The command dictionaries the methods build. *)
Definition set_pilot (params : gmap string json) : json :=
  JDict {[ "method" := JStr "setPilot"; "params" := JDict params ]}.

Definition get_status_command : json := JDict {[ "method" := JStr "getPilot" ]}.
Definition turn_on_command : json := set_pilot {[ "state" := JBool true ]}.
Definition turn_off_command : json := set_pilot {[ "state" := JBool false ]}.
Definition set_brightness_command (brightness : Z) : json :=
  set_pilot {[ "state" := JBool true; "dimming" := JInt brightness ]}.
Definition set_rgb_color_command (r g b brightness : Z) : json :=
  set_pilot {[ "state" := JBool true; "r" := JInt r; "g" := JInt g;
               "b" := JInt b; "dimming" := JInt brightness ]}.
Definition set_color_temperature_command (temp brightness : Z) : json :=
  set_pilot {[ "state" := JBool true; "temp" := JInt temp;
               "dimming" := JInt brightness ]}.
Definition set_scene_command (scene_id : Z) : json :=
  set_pilot {[ "state" := JBool true; "sceneId" := JInt scene_id ]}.
Definition set_speed_command (speed : Z) : json :=
  set_pilot {[ "speed" := JInt speed ]}.

Definition get_status (self : WizBulbController) : M json :=
  let command := get_status_command in
  _send_command self command.

(** [response is not None and
     response.get("result", {}).get("success", False)] *)
Definition success_of (response : json) : M json :=
  match response with
  | JNull => ret (JBool false)
  | _ =>
      result <- lift (py_get response "result" (JDict ∅)) ;;
      lift (py_get result "success" (JBool false))
  end.

Definition turn_on (self : WizBulbController) : M json :=
  let command := turn_on_command in
  response <- _send_command self command ;;
  success_of response.

Definition turn_off (self : WizBulbController) : M json :=
  let command := turn_off_command in
  response <- _send_command self command ;;
  success_of response.

Definition set_brightness (self : WizBulbController) (brightness : Z) : M json :=
  if negb ((10 <=? brightness) && (brightness <=? 100))
  then raise (ValueError "Brightness must be between 10 and 100")
  else
    let command := set_brightness_command brightness in
    response <- _send_command self command ;;
    success_of response.

Definition set_rgb_color (self : WizBulbController) (r g b brightness : Z)
    : M json :=
  if negb (forallb (fun val => (0 <=? val) && (val <=? 255)) [r; g; b])
  then raise (ValueError "RGB values must be between 0 and 255")
  else if negb ((10 <=? brightness) && (brightness <=? 100))
  then raise (ValueError "Brightness must be between 10 and 100")
  else
    let command := set_rgb_color_command r g b brightness in
    response <- _send_command self command ;;
    success_of response.

Definition set_color_temperature (self : WizBulbController)
    (temp brightness : Z) : M json :=
  if negb ((2200 <=? temp) && (temp <=? 6500))
  then raise (ValueError "Color temperature must be between 2200K and 6500K")
  else if negb ((10 <=? brightness) && (brightness <=? 100))
  then raise (ValueError "Brightness must be between 10 and 100")
  else
    let command := set_color_temperature_command temp brightness in
    response <- _send_command self command ;;
    success_of response.

Definition set_scene (self : WizBulbController) (scene_id : Z) : M json :=
  let command := set_scene_command scene_id in
  response <- _send_command self command ;;
  success_of response.

Definition set_speed (self : WizBulbController) (speed : Z) : M json :=
  if negb ((10 <=? speed) && (speed <=? 200))
  then raise (ValueError "Speed must be between 10 and 200")
  else
    let command := set_speed_command speed in
    response <- _send_command self command ;;
    success_of response.

Definition is_online (self : WizBulbController) : M bool :=
  status <- get_status self ;;
  ret (match status with JNull => false | _ => true end).

(** *** The capability calls, as one type

    Used to state properties of every operation at once. *)

Inductive call : Type :=
| TurnOn
| TurnOff
| SetBrightness (brightness : Z)
| SetRgbColor (r g b brightness : Z)
| SetColorTemperature (temp brightness : Z)
| SetScene (scene_id : Z)
| SetSpeed (speed : Z).

Definition perform (self : WizBulbController) (c : call) : M json :=
  match c with
  | TurnOn => turn_on self
  | TurnOff => turn_off self
  | SetBrightness brightness => set_brightness self brightness
  | SetRgbColor r g b brightness => set_rgb_color self r g b brightness
  | SetColorTemperature temp brightness => set_color_temperature self temp brightness
  | SetScene scene_id => set_scene self scene_id
  | SetSpeed speed => set_speed self speed
  end.

Definition command_of (c : call) : json :=
  match c with
  | TurnOn => turn_on_command
  | TurnOff => turn_off_command
  | SetBrightness brightness => set_brightness_command brightness
  | SetRgbColor r g b brightness => set_rgb_color_command r g b brightness
  | SetColorTemperature temp brightness =>
      set_color_temperature_command temp brightness
  | SetScene scene_id => set_scene_command scene_id
  | SetSpeed speed => set_speed_command speed
  end.

End Controller.

(** ** Regular expressions, as far as [discover_bulbs] uses them *)

Module Regex.

Inductive regex : Type :=
| Class (p : ascii -> bool)          (* a set of characters, as [[0-9]] *)
| Boundary                           (* [\b] *)
| Seq (r1 r2 : regex)
| Repeat (r : regex) (lo hi : nat).  (* [r{lo,hi}], greedy *)

Definition char_between (lo hi c : ascii) : bool :=
  (N.leb (N_of_ascii lo) (N_of_ascii c) && N.leb (N_of_ascii c) (N_of_ascii hi))%bool.

Definition is_digit (c : ascii) : bool := char_between "0" "9" c.

(** [\w] on ASCII text: letters, digits and the underscore. *)
Definition is_word (c : ascii) : bool :=
  (char_between "a" "z" c || char_between "A" "Z" c || is_digit c || Ascii.eqb c "_")%bool.

Definition is_word_at (c : option ascii) : bool :=
  match c with
  | Some c => is_word c
  | None => false
  end.

(** A backtracking matcher in continuation style.  [prev] is the character
    before the current position, [s] the text from the current position,
    and the continuation receives the same two after the match of [r]; the
    answer is the text left after the whole match. *)
Fixpoint rmatch (r : regex) (prev : option ascii) (s : list ascii)
    (k : option ascii -> list ascii -> option (list ascii))
    : option (list ascii) :=
  match r with
  | Class p =>
      match s with
      | c :: s' => if p c then k (Some c) s' else None
      | [] => None
      end
  | Boundary =>
      if xorb (is_word_at prev) (is_word_at (head s)) then k prev s else None
  | Seq r1 r2 => rmatch r1 prev s (fun prev' s' => rmatch r2 prev' s' k)
  | Repeat r lo hi =>
      (fix rep (hi lo : nat) (prev : option ascii) (s : list ascii)
           : option (list ascii) :=
         match hi with
         | O => match lo with O => k prev s | S _ => None end
         | S hi' =>
             match rmatch r prev s (fun prev' s' => rep hi' (Nat.pred lo) prev' s') with
             | Some rest => Some rest
             | None => match lo with O => k prev s | S _ => None end
             end
         end) hi lo prev s
  end.

(** The matches of [r] in [s], left to right and without overlap, for a
    pattern that does not match the empty string.  [skip] counts the
    characters still covered by the last match. *)
Fixpoint scan (r : regex) (prev : option ascii) (s : list ascii) (skip : nat)
    : list (list ascii) :=
  match s with
  | [] => []
  | c :: s' =>
      match skip with
      | S n => scan r (Some c) s' n
      | O =>
          match rmatch r prev s (fun _ rest => Some rest) with
          | Some rest =>
              match (length s - length rest)%nat with
              | O => scan r (Some c) s' 0
              | S n => take (S n) s :: scan r (Some c) s' n
              end
          | None => scan r (Some c) s' 0
          end
      end
  end.

(** [re.findall(r, text)] *)
Definition findall (r : regex) (text : string) : list string :=
  map string_of_list_ascii (scan r None (list_ascii_of_string text) 0).

Definition chr (c : ascii) : regex := Class (Ascii.eqb c).
Definition digit : regex := Class is_digit.

(** [r'\b(?:[0-9]{1,3}\.){3}[0-9]{1,3}\b'] *)
Definition ipv4 : regex :=
  Seq Boundary
    (Seq (Repeat (Seq (Repeat digit 1 3) (chr ".")) 3 3)
       (Seq (Repeat digit 1 3) Boundary)).

End Regex.

(** ** Discovery *)

Section Discovery.

Variable net : network.

(** [subprocess.run(argv, capture_output=True, text=True, timeout=t)]: the
    text the process writes to its standard output, or the exception
    raised ([TimeoutExpired] after [t] seconds, [FileNotFoundError] when
    the program is not installed). *)
Variable subprocess_run : list string -> Z -> exn + string.

Definition run (argv : list string) (timeout : Z) : M string :=
  match subprocess_run argv timeout with
  | inl e => raise e
  | inr out => ret out
  end.

(** The loop [for ip in ips: ...] of [discover_bulbs], from the
    [bulb_ips] collected so far. *)
Fixpoint discover_loop (ips : list string) (bulb_ips : list string)
    : M (list string) :=
  match ips with
  | [] => ret bulb_ips
  | ip :: ips' =>
      let controller := init ip default_port 1.0%float in
      online <- is_online net controller ;;
      if online
      then
        print [Lit "Found WiZ bulb at: "; Fmt (JStr ip)] ;;
        discover_loop ips' (bulb_ips ++ [ip])
      else discover_loop ips' bulb_ips
  end.

Definition discover_bulbs (network_range : string) : M (list string) :=
  try_except
    (result <- run ["nmap"; "-sn"; network_range] 120 ;;
     let ips := Regex.findall Regex.ipv4 result in
     bulb_ips <- discover_loop ips [] ;;
     ret bulb_ips)
    (fun e =>
       match e with
       | TimeoutExpired =>
           print [Lit "Network scan timed out"] ;;
           ret []
       | FileNotFoundError _ =>
           print [Lit "nmap not found. Please install nmap to use bulb discovery."] ;;
           ret []
       | _ =>
           print [Lit "Error during discovery: "; FmtExn e] ;;
           ret []
       end).

End Discovery.

(** ** The tool server ([smart_bulb_server.py]) *)

Module Server.

Definition BULB_IP : string := "192.168.1.8".

Definition bulb : WizBulbController := init BULB_IP default_port default_timeout.

Definition str (s : string) : pyval := PVal (JStr s).
Definition int (z : Z) : pyval := PVal (JInt z).

(** [f"RGB({r}, {g}, {b})"] *)
Definition rgb_text (r g b : json) : fstring :=
  [Lit "RGB("; Fmt r; Lit ", "; Fmt g; Lit ", "; Fmt b; Lit ")"].

Definition scene_names : gmap Z string :=
  list_to_map
    [(1, "Ocean"); (2, "Romance"); (3, "Sunset"); (4, "Party"); (5, "Fireplace");
     (6, "Cozy"); (7, "Forest"); (8, "Pastel Colors"); (9, "Wake up"); (10, "Bedtime");
     (11, "Warm White"); (12, "Daylight"); (13, "Cool white"); (14, "Night light");
     (15, "Focus"); (16, "Relax"); (17, "True colors"); (18, "TV time"); (19, "Plantgrowth");
     (20, "Spring"); (21, "Summer"); (22, "Fall"); (23, "Deepdive"); (24, "Jungle");
     (25, "Mojito"); (26, "Club"); (27, "Christmas"); (28, "Halloween"); (29, "Candlelight");
     (30, "Golden white"); (31, "Pulse"); (32, "Steampunk")].

Section Tools.

Variable net : network.

(** The part of [get_bulb_status] that reads a reply which is not [None]. *)
Definition read_status (status : json) : M (gmap string pyval) :=
  status_result <- lift (py_get status "result" (JDict ∅)) ;;
  power <- lift (py_get status_result "state" (JBool false)) ;;
  let result : gmap string pyval :=
    {[ "bulb_ip" := str BULB_IP;
       "status" := str "online";
       "state" := str (if truthy power then "on" else "off") ]} in
  (* Add brightness if available *)
  status_result <- lift (py_get status "result" (JDict ∅)) ;;
  has_dimming <- lift (py_contains "dimming" status_result) ;;
  result <-
    (if has_dimming : bool
     then
       status_result <- lift (py_getitem status "result") ;;
       dimming <- lift (py_getitem status_result "dimming") ;;
       ret (<["brightness" := PStr [Fmt dimming; Lit "%"]]> result)
     else ret result) ;;
  (* Add color information if available *)
  pilot_data <- lift (py_get status "result" (JDict ∅)) ;;
  has_r <- lift (py_contains "r" pilot_data) ;;
  has_rgb <-
    (if has_r : bool
     then
       has_g <- lift (py_contains "g" pilot_data) ;;
       if has_g : bool then lift (py_contains "b" pilot_data) else ret false
     else ret false) ;;
  result <-
    (if has_rgb : bool
     then
       r <- lift (py_getitem pilot_data "r") ;;
       g <- lift (py_getitem pilot_data "g") ;;
       b <- lift (py_getitem pilot_data "b") ;;
       ret (<["color" := PStr (rgb_text r g b)]> result)
     else
       has_temp <- lift (py_contains "temp" pilot_data) ;;
       if has_temp : bool
       then
         temp <- lift (py_getitem pilot_data "temp") ;;
         ret (<["color_temperature" := PStr [Fmt temp; Lit "K"]]> result)
       else ret result) ;;
  (* Add scene if available *)
  has_scene <- lift (py_contains "sceneId" pilot_data) ;;
  result <-
    (if has_scene : bool
     then
       scene <- lift (py_getitem pilot_data "sceneId") ;;
       ret (<["scene_id" := PVal scene]> result)
     else ret result) ;;
  ret result.

Definition get_bulb_status : M (gmap string pyval) :=
  try_except
    (status <- get_status net bulb ;;
     match status with
     | JNull =>
         ret {[ "error" := PStr [Lit "Failed to get status from bulb at ";
                                 Fmt (JStr BULB_IP)];
                "bulb_ip" := str BULB_IP;
                "status" := str "offline" ]}
     | _ => read_status status
     end)
    (fun e =>
       ret {[ "error" := PStr [Lit "Error getting bulb status: "; FmtExn e];
              "bulb_ip" := str BULB_IP;
              "status" := str "error" ]}).

Definition turn_bulb_on : M (gmap string pyval) :=
  try_except
    (success <- turn_on net bulb ;;
     ret {[ "operation" := str "turn_on";
            "bulb_ip" := str BULB_IP;
            "success" := PVal success;
            "message" := str (if truthy success
                              then "Bulb turned on successfully"
                              else "Failed to turn on bulb") ]})
    (fun e =>
       ret {[ "operation" := str "turn_on";
              "bulb_ip" := str BULB_IP;
              "success" := PVal (JBool false);
              "error" := PStr [Lit "Error turning on bulb: "; FmtExn e] ]}).

Definition turn_bulb_off : M (gmap string pyval) :=
  try_except
    (success <- turn_off net bulb ;;
     ret {[ "operation" := str "turn_off";
            "bulb_ip" := str BULB_IP;
            "success" := PVal success;
            "message" := str (if truthy success
                              then "Bulb turned off successfully"
                              else "Failed to turn off bulb") ]})
    (fun e =>
       ret {[ "operation" := str "turn_off";
              "bulb_ip" := str BULB_IP;
              "success" := PVal (JBool false);
              "error" := PStr [Lit "Error turning off bulb: "; FmtExn e] ]}).

Definition set_bulb_brightness (brightness : Z) : M (gmap string pyval) :=
  try_except
    (if negb ((10 <=? brightness) && (brightness <=? 100))
     then
       ret {[ "operation" := str "set_brightness";
              "bulb_ip" := str BULB_IP;
              "success" := PVal (JBool false);
              "error" := str "Brightness must be between 10 and 100";
              "requested_brightness" := int brightness ]}
     else
       success <- set_brightness net bulb brightness ;;
       ret {[ "operation" := str "set_brightness";
              "bulb_ip" := str BULB_IP;
              "success" := PVal success;
              "brightness" := int brightness;
              "message" :=
                PStr (if truthy success
                      then [Lit "Brightness set to "; Fmt (JInt brightness); Lit "%"]
                      else [Lit "Failed to set brightness to ";
                            Fmt (JInt brightness); Lit "%"]) ]})
    (fun e =>
       ret {[ "operation" := str "set_brightness";
              "bulb_ip" := str BULB_IP;
              "success" := PVal (JBool false);
              "brightness" := int brightness;
              "error" := PStr [Lit "Error setting brightness: "; FmtExn e] ]}).

Definition set_bulb_rgb_color (r g b brightness : Z) : M (gmap string pyval) :=
  try_except
    (if negb (forallb (fun val => (0 <=? val) && (val <=? 255)) [r; g; b])
     then
       ret {[ "operation" := str "set_rgb_color";
              "bulb_ip" := str BULB_IP;
              "success" := PVal (JBool false);
              "error" := str "RGB values must be between 0 and 255";
              "requested_color" := PStr (rgb_text (JInt r) (JInt g) (JInt b)) ]}
     else if negb ((10 <=? brightness) && (brightness <=? 100))
     then
       ret {[ "operation" := str "set_rgb_color";
              "bulb_ip" := str BULB_IP;
              "success" := PVal (JBool false);
              "error" := str "Brightness must be between 10 and 100";
              "requested_brightness" := int brightness ]}
     else
       success <- set_rgb_color net bulb r g b brightness ;;
       ret {[ "operation" := str "set_rgb_color";
              "bulb_ip" := str BULB_IP;
              "success" := PVal success;
              "color" := PStr (rgb_text (JInt r) (JInt g) (JInt b));
              "brightness" := int brightness;
              "message" :=
                PStr (if truthy success
                      then ([Lit "Color set to "] ++ rgb_text (JInt r) (JInt g) (JInt b)
                            ++ [Lit " at "; Fmt (JInt brightness); Lit "% brightness"])%list
                      else [Lit "Failed to set RGB color"]) ]})
    (fun e =>
       ret {[ "operation" := str "set_rgb_color";
              "bulb_ip" := str BULB_IP;
              "success" := PVal (JBool false);
              "color" := PStr (rgb_text (JInt r) (JInt g) (JInt b));
              "brightness" := int brightness;
              "error" := PStr [Lit "Error setting RGB color: "; FmtExn e] ]}).

Definition set_bulb_color_temperature (temperature brightness : Z)
    : M (gmap string pyval) :=
  try_except
    (if negb ((2200 <=? temperature) && (temperature <=? 6500))
     then
       ret {[ "operation" := str "set_color_temperature";
              "bulb_ip" := str BULB_IP;
              "success" := PVal (JBool false);
              "error" := str "Color temperature must be between 2200K and 6500K";
              "requested_temperature" := PStr [Fmt (JInt temperature); Lit "K"] ]}
     else if negb ((10 <=? brightness) && (brightness <=? 100))
     then
       ret {[ "operation" := str "set_color_temperature";
              "bulb_ip" := str BULB_IP;
              "success" := PVal (JBool false);
              "error" := str "Brightness must be between 10 and 100";
              "requested_brightness" := int brightness ]}
     else
       success <- set_color_temperature net bulb temperature brightness ;;
       ret {[ "operation" := str "set_color_temperature";
              "bulb_ip" := str BULB_IP;
              "success" := PVal success;
              "temperature" := PStr [Fmt (JInt temperature); Lit "K"];
              "brightness" := int brightness;
              "message" :=
                PStr (if truthy success
                      then [Lit "Color temperature set to "; Fmt (JInt temperature);
                            Lit "K at "; Fmt (JInt brightness); Lit "% brightness"]
                      else [Lit "Failed to set color temperature"]) ]})
    (fun e =>
       ret {[ "operation" := str "set_color_temperature";
              "bulb_ip" := str BULB_IP;
              "success" := PVal (JBool false);
              "temperature" := PStr [Fmt (JInt temperature); Lit "K"];
              "brightness" := int brightness;
              "error" := PStr [Lit "Error setting color temperature: "; FmtExn e] ]}).

Definition set_bulb_scene (scene_id : Z) : M (gmap string pyval) :=
  try_except
    (if negb ((1 <=? scene_id) && (scene_id <=? 32))
     then
       ret {[ "operation" := str "set_scene";
              "bulb_ip" := str BULB_IP;
              "success" := PVal (JBool false);
              "error" := str "Scene ID must be between 1 and 32";
              "requested_scene_id" := int scene_id ]}
     else
       success <- set_scene net bulb scene_id ;;
       let scene_name : fstring :=
         match scene_names !! scene_id with
         | Some name => [Lit name]
         | None => [Lit "Scene "; Fmt (JInt scene_id)]
         end in
       ret {[ "operation" := str "set_scene";
              "bulb_ip" := str BULB_IP;
              "success" := PVal success;
              "scene_id" := int scene_id;
              "scene_name" := PStr scene_name;
              "message" :=
                PStr (if truthy success
                      then ([Lit "Scene set to '"] ++ scene_name
                            ++ [Lit "' (ID: "; Fmt (JInt scene_id); Lit ")"])%list
                      else ([Lit "Failed to set scene '"] ++ scene_name
                            ++ [Lit "'"])%list) ]})
    (fun e =>
       ret {[ "operation" := str "set_scene";
              "bulb_ip" := str BULB_IP;
              "success" := PVal (JBool false);
              "scene_id" := int scene_id;
              "error" := PStr [Lit "Error setting scene: "; FmtExn e] ]}).

Definition check_bulb_connection : M (gmap string pyval) :=
  try_except
    (online <- is_online net bulb ;;
     ret {[ "operation" := str "check_connection";
            "bulb_ip" := str BULB_IP;
            "online" := PVal (JBool online);
            "status" := str (if online : bool then "connected" else "disconnected");
            "message" := PStr [Lit "Bulb at "; Fmt (JStr BULB_IP); Lit " is ";
                               Lit (if online : bool then "online" else "offline")] ]})
    (fun e =>
       ret {[ "operation" := str "check_connection";
              "bulb_ip" := str BULB_IP;
              "online" := PVal (JBool false);
              "status" := str "error";
              "error" := PStr [Lit "Error checking connection: "; FmtExn e] ]}).

(** The tools, as one type. *)
Inductive tool : Type :=
| GetBulbStatus
| TurnBulbOn
| TurnBulbOff
| SetBulbBrightness (brightness : Z)
| SetBulbRgbColor (r g b brightness : Z)
| SetBulbColorTemperature (temperature brightness : Z)
| SetBulbScene (scene_id : Z)
| CheckBulbConnection.

Definition invoke (t : tool) : M (gmap string pyval) :=
  match t with
  | GetBulbStatus => get_bulb_status
  | TurnBulbOn => turn_bulb_on
  | TurnBulbOff => turn_bulb_off
  | SetBulbBrightness brightness => set_bulb_brightness brightness
  | SetBulbRgbColor r g b brightness => set_bulb_rgb_color r g b brightness
  | SetBulbColorTemperature temperature brightness =>
      set_bulb_color_temperature temperature brightness
  | SetBulbScene scene_id => set_bulb_scene scene_id
  | CheckBulbConnection => check_bulb_connection
  end.

End Tools.

End Server.

(** ** The demonstration ([main] of [wiz_bulb_controller.py]) *)

(** [time.sleep(seconds)]: nothing of the program state depends on the
    time. *)
Definition sleep (seconds : Z) : M unit := ret tt.

Definition newline : string := String "010"%char EmptyString.

Section Main.

Variable net : network.
Variable subprocess_run : list string -> Z -> exn + string.

(** [json.dumps(obj, indent=n)] *)
Variable json_dumps_indent : json -> Z -> string.

Definition main : M unit :=
  (* Discover WiZ bulbs on the network *)
  print [Lit "🔍 Discovering WiZ bulbs on the network..."] ;;
  bulb_ips <- discover_bulbs net subprocess_run "192.168.1.0/24" ;;
  match bulb_ips with
  | [] =>
      print [Lit "❌ No WiZ bulbs found on the network."] ;;
      print [Lit "Make sure:"] ;;
      print [Lit "  1. Your bulbs are powered on and connected to WiFi"] ;;
      print [Lit "  2. You're on the same network as the bulbs"] ;;
      print [Lit "  3. nmap is installed (brew install nmap on macOS)"] ;;
      print [Lit (newline ++ "You can also manually specify an IP address by editing BULB_IP variable.")] ;;
      ret tt
  | BULB_IP :: _ =>
      (* Use the first discovered bulb *)
      print [Lit "✅ Using bulb at "; Fmt (JStr BULB_IP)] ;;
      (if (1 <? length bulb_ips)%nat
       then
         print [Lit "📝 Note: Found "; Fmt (JInt (Z.of_nat (length bulb_ips)));
                Lit " bulbs. Using the first one."] ;;
         print [Lit "   All discovered bulbs: "; Lit (String.concat ", " bulb_ips)]
       else ret tt) ;;
      print [Lit (newline ++ "🔮 Connecting to WiZ bulb at "); Fmt (JStr BULB_IP);
             Lit "..."] ;;
      let bulb := init BULB_IP default_port default_timeout in
      (* Check if bulb is online *)
      online <- is_online net bulb ;;
      if negb online
      then
        print [Lit "Bulb is not responding. Check IP address and network connection."] ;;
        ret tt
      else
        print [Lit "Bulb is online!"] ;;
        (* Get current status *)
        status <- get_status net bulb ;;
        (if truthy status
         then print [Lit "Current status: "; Lit (json_dumps_indent status 2)]
         else ret tt) ;;
        (* Demo sequence *)
        print [Lit (newline ++ "--- Demo Sequence ---")] ;;
        print [Lit "Turning bulb on..."] ;;
        turn_on net bulb ;;
        sleep 1 ;;
        print [Lit "Setting to bright white..."] ;;
        set_color_temperature net bulb 4000 100 ;;
        sleep 2 ;;
        print [Lit "Setting to red..."] ;;
        set_rgb_color net bulb 255 0 0 80 ;;
        sleep 2 ;;
        print [Lit "Setting to blue..."] ;;
        set_rgb_color net bulb 0 0 255 80 ;;
        sleep 2 ;;
        print [Lit "Setting to green..."] ;;
        set_rgb_color net bulb 0 255 0 80 ;;
        sleep 2 ;;
        print [Lit "Setting romantic scene..."] ;;
        set_scene net bulb 2 ;;
        sleep 3 ;;
        print [Lit "Dimming to 30%..."] ;;
        set_brightness net bulb 30 ;;
        sleep 2 ;;
        print [Lit "Turning bulb off..."] ;;
        turn_off net bulb ;;
        print [Lit "Demo complete!"]
  end.

End Main.

(** * Vocabulary of the properties *)

(** ** The ranges of the operations table *)

Definition between (lo hi x : Z) : bool := (lo <=? x) && (x <=? hi).

(** The input constraints of the design document, operation by operation:
    brightness in [10,100], colour channels in [0,255], colour temperature
    in [2200,6500], scene in [1,32], animation speed in [10,200]. *)
Definition in_range (c : call) : bool :=
  match c with
  | TurnOn | TurnOff => true
  | SetBrightness brightness => between 10 100 brightness
  | SetRgbColor r g b brightness =>
      between 0 255 r && between 0 255 g && between 0 255 b
      && between 10 100 brightness
  | SetColorTemperature temp brightness =>
      between 2200 6500 temp && between 10 100 brightness
  | SetScene scene_id => between 1 32 scene_id
  | SetSpeed speed => between 10 200 speed
  end.

Definition tool_in_range (t : Server.tool) : bool :=
  match t with
  | Server.SetBulbBrightness brightness => between 10 100 brightness
  | Server.SetBulbRgbColor r g b brightness =>
      between 0 255 r && between 0 255 g && between 0 255 b
      && between 10 100 brightness
  | Server.SetBulbColorTemperature temperature brightness =>
      between 2200 6500 temperature && between 10 100 brightness
  | Server.SetBulbScene scene_id => between 1 32 scene_id
  | _ => true
  end.

(** ** One exchange, seen from outside *)

(** What the network does to the exchange that [_send_command] starts in
    state [s]: the stage at which it fails, or the datagram received. *)
Inductive outcome : Type :=
| CreateFailed (e : exn)
| SendFailed (e : exn)
| RecvFailed (e : exn)
| Received (data : payload).

Definition destination (self : WizBulbController) : address :=
  (bulb_ip self, port self).

Definition exchange (net : network) (s : state) (self : WizBulbController)
    (command : json) : outcome :=
  let fd := created s in
  match net_socket net fd with
  | Some e => CreateFailed e
  | None =>
      match net_sendto net fd (Doc command) (destination self) with
      | Some e => SendFailed e
      | None =>
          match net_recvfrom net fd
                  {| so_timeout := Some (timeout self);
                     so_sent := [(Doc command, destination self)] |} 2048 with
          | inl e => RecvFailed e
          | inr data => Received data
          end
      end
  end.

(** The reply [_send_command] hands to its caller. *)
Definition reply_of (o : outcome) : json :=
  match o with
  | Received (Doc j) => j
  | _ => JNull
  end.

(** The exception behind a failed exchange. *)
Definition failure_of (o : outcome) : option exn :=
  match o with
  | CreateFailed e | SendFailed e | RecvFailed e => Some e
  | Received (Raw _ e) => Some e
  | Received (Doc _) => None
  end.

(** The line [_send_command] prints when it handles exception [e]. *)
Definition failure_line (self : WizBulbController) (e : exn) : fstring :=
  match e with
  | socket_timeout =>
      [Lit "Timeout: No response from bulb at "; Fmt (JStr (bulb_ip self))]
  | _ => [Lit "Error communicating with bulb: "; FmtExn e]
  end.

(** The state [_send_command] leaves behind.  The socket of the exchange
    is named [created s]; the table records the calls of [close], not
    what the interpreter does with a socket object that is no longer
    referenced. *)
Definition endpoint_after (self : WizBulbController) (command : json)
    (o : outcome) : option socket_state :=
  match o with
  | CreateFailed _ => None
  | SendFailed _ =>
      Some {| so_timeout := Some (timeout self); so_sent := [] |}
  | RecvFailed _ | Received (Raw _ _) =>
      Some {| so_timeout := Some (timeout self);
              so_sent := [(Doc command, destination self)] |}
  | Received (Doc _) => None
  end.

Definition sent_by (self : WizBulbController) (command : json) (o : outcome)
    : list (payload * address) :=
  match o with
  | CreateFailed _ | SendFailed _ => []
  | RecvFailed _ | Received _ => [(Doc command, destination self)]
  end.

Definition printed_by (self : WizBulbController) (o : outcome) : list fstring :=
  match failure_of o with
  | Some e => [failure_line self e]
  | None => []
  end.

Definition after_exchange (s : state) (self : WizBulbController)
    (command : json) (o : outcome) : state :=
  {| created := S (created s);
     sockets :=
       match o with
       | CreateFailed _ => sockets s
       | _ =>
           match endpoint_after self command o with
           | Some so => <[created s := so]> (sockets s)
           | None => delete (created s) (sockets s)
           end
       end;
     wire := wire s ++ sent_by self command o;
     stdout := stdout s ++ printed_by self o |}.

(** ** Networks used in examples *)

(** A network on which sockets and sends never fail and [recvfrom] is
    answered by [reply]. *)
Definition reliable (reply : socket_state -> exn + payload) : network :=
  {| net_socket := fun _ => None;
     net_sendto := fun _ _ _ => None;
     net_recvfrom := fun _ so _ => reply so |}.

(** No datagram ever arrives. *)
Definition silent : network := reliable (fun _ => inl socket_timeout).

(** Every datagram is answered by the document [j]. *)
Definition answering (j : json) : network := reliable (fun _ => inr (Doc j)).

(** Every datagram is answered by bytes that are not JSON. *)
Definition garbling (bytes : string) : network :=
  reliable (fun _ =>
    inr (Raw bytes (JSONDecodeError "Expecting value: line 1 column 1 (char 0)"))).

Definition success_reply : json :=
  JDict {[ "result" := JDict {[ "success" := JBool true ]} ]}.

(** ** What the calls and the tools return *)

(** [set_scene] is the one method with a constrained argument and no check
    of its own: the range of a scene is checked by the tool
    [set_bulb_scene] before it calls the method. *)
Definition checked_by_method (c : call) : bool :=
  match c with
  | SetScene _ => false
  | _ => true
  end.

(** The value of [response is not None and
    response.get("result", {}).get("success", False)]. *)
Definition verdict (response : json) : result json :=
  match response with
  | JNull => Ret (JBool false)
  | _ =>
      match py_get response "result" (JDict ∅) with
      | Ret result => py_get result "success" (JBool false)
      | Raise e => Raise e
      end
  end.

Definition is_none (v : json) : bool :=
  match v with
  | JNull => true
  | _ => false
  end.

(** The command a tool has the controller send. *)
Definition tool_command (t : Server.tool) : json :=
  match t with
  | Server.GetBulbStatus | Server.CheckBulbConnection => get_status_command
  | Server.TurnBulbOn => turn_on_command
  | Server.TurnBulbOff => turn_off_command
  | Server.SetBulbBrightness brightness => set_brightness_command brightness
  | Server.SetBulbRgbColor r g b brightness =>
      set_rgb_color_command r g b brightness
  | Server.SetBulbColorTemperature temperature brightness =>
      set_color_temperature_command temperature brightness
  | Server.SetBulbScene scene_id => set_scene_command scene_id
  end.

(** How the dictionary returned by a tool says that the operation failed. *)
Definition reports_failure (t : Server.tool) (d : gmap string pyval) : Prop :=
  match t with
  | Server.GetBulbStatus => d !! "status" = Some (Server.str "offline")
  | Server.CheckBulbConnection =>
      d !! "online" = Some (PVal (JBool false))
      /\ d !! "status" = Some (Server.str "disconnected")
  | _ => d !! "success" = Some (PVal (JBool false))
  end.

(** The call that a tool makes on the controller, when it makes one other
    than the status query. *)
Definition tool_call (t : Server.tool) : option call :=
  match t with
  | Server.GetBulbStatus | Server.CheckBulbConnection => None
  | Server.TurnBulbOn => Some TurnOn
  | Server.TurnBulbOff => Some TurnOff
  | Server.SetBulbBrightness brightness => Some (SetBrightness brightness)
  | Server.SetBulbRgbColor r g b brightness => Some (SetRgbColor r g b brightness)
  | Server.SetBulbColorTemperature temperature brightness =>
      Some (SetColorTemperature temperature brightness)
  | Server.SetBulbScene scene_id => Some (SetScene scene_id)
  end.

Definition method_of (sent : option (payload * address)) : option json :=
  match sent with
  | Some (Doc (JDict d), _) => d !! "method"
  | _ => None
  end.

(** A device that answers every [setPilot] with
    [{"result": {"success": true}}] and nothing else. *)
Definition set_pilot_fake : network :=
  reliable (fun so =>
    match method_of (last (so_sent so)) with
    | Some (JStr m) =>
        if String.eqb m "setPilot" then inr (Doc success_reply)
        else inl socket_timeout
    | _ => inl socket_timeout
    end).

(** ** Interpretation of a status reply *)

Module Status.

Import Server.

(** The dictionary for a bulb that did not answer. *)
Definition offline : gmap string pyval :=
  {[ "error" := PStr [Lit "Failed to get status from bulb at "; Fmt (JStr BULB_IP)];
     "bulb_ip" := str BULB_IP;
     "status" := str "offline" ]}.

(** The dictionary for a reply whose reading raised [e]. *)
Definition failed (e : exn) : gmap string pyval :=
  {[ "error" := PStr [Lit "Error getting bulb status: "; FmtExn e];
     "bulb_ip" := str BULB_IP;
     "status" := str "error" ]}.

(** The interpretation of the [result] document of a status reply, in the
    words of the design: power from the state field, brightness when a
    dimming field is present, the RGB triple when the three channels are
    present and otherwise the colour temperature when that is present,
    and the scene when it is present. *)
Definition power (r : gmap string json) : pyval :=
  str (if truthy (default (JBool false) (r !! "state")) then "on" else "off").

Definition with_brightness (r : gmap string json) (report : gmap string pyval)
    : gmap string pyval :=
  match r !! "dimming" with
  | Some dimming => <["brightness" := PStr [Fmt dimming; Lit "%"]]> report
  | None => report
  end.

Definition with_color (r : gmap string json) (report : gmap string pyval)
    : gmap string pyval :=
  match r !! "r", r !! "g", r !! "b" with
  | Some red, Some green, Some blue =>
      <["color" := PStr (rgb_text red green blue)]> report
  | _, _, _ =>
      match r !! "temp" with
      | Some temp => <["color_temperature" := PStr [Fmt temp; Lit "K"]]> report
      | None => report
      end
  end.

Definition with_scene (r : gmap string json) (report : gmap string pyval)
    : gmap string pyval :=
  match r !! "sceneId" with
  | Some scene => <["scene_id" := PVal scene]> report
  | None => report
  end.

Definition interpretation (r : gmap string json) : gmap string pyval :=
  with_scene r
    (with_color r
       (with_brightness r
          {[ "bulb_ip" := str BULB_IP;
             "status" := str "online";
             "state" := power r ]})).

Definition no_get (v : json) : exn :=
  AttributeError ("'" ++ type_name v ++ "' object has no attribute 'get'").

(** What [get_bulb_status] returns, by the reply [get_status] gave it. *)
Definition report (reply : json) : gmap string pyval :=
  match reply with
  | JNull => offline
  | JDict d =>
      match d !! "result" with
      | None => interpretation ∅
      | Some (JDict r) => interpretation r
      | Some v => failed (no_get v)
      end
  | v => failed (no_get v)
  end.

End Status.

Definition rgb_reply : json :=
  JDict {[ "result" :=
             JDict {[ "r" := JInt 255; "g" := JInt 0; "b" := JInt 0;
                      "dimming" := JInt 80; "state" := JBool true ]} ]}.

Definition white_reply : json :=
  JDict {[ "result" :=
             JDict {[ "temp" := JInt 4000; "dimming" := JInt 100;
                      "state" := JBool true ]} ]}.

Definition rendered (v : option pyval) : option string :=
  match v with
  | Some (PStr f) => render f
  | Some (PVal j) => str_of_json j
  | None => None
  end.

Definition rgb_scene_reply : json :=
  JDict {[ "result" :=
             JDict {[ "state" := JBool true; "sceneId" := JInt 0;
                      "r" := JInt 255; "g" := JInt 0; "b" := JInt 0;
                      "dimming" := JInt 80 ]} ]}.

(** ** Discovery *)

(** The controller [discover_bulbs] builds for a candidate address. *)
Definition probe (ip : string) : WizBulbController :=
  init ip default_port 1.0%float.

(** Whether the probe of [ip], started in state [s], brings back a reply:
    any datagram that parses, to anything but [null]. *)
Definition answers (net : network) (ip : string) (s : state) : bool :=
  negb (is_none (reply_of (exchange net s (probe ip) get_status_command))).

(** The shape the design expects of a status reply: a document with a
    [result] field that holds a document. *)
Definition expected_shape (reply : json) : bool :=
  match reply with
  | JDict d =>
      match d !! "result" with
      | Some (JDict _) => true
      | _ => false
      end
  | _ => false
  end.

Definition error_reply : json :=
  JDict {[ "error" := JStr "Method not found" ]}.

(** A sweep that completes and prints [out]. *)
Definition finding (out : string) : list string -> Z -> exn + string :=
  fun _ _ => inr out.

(** A sweep that does not complete in time. *)
Definition timing_out : list string -> Z -> exn + string :=
  fun _ _ => inl TimeoutExpired.

(** ** Replies that cannot be read *)

(** The object on which [.get] fails when a method reads [reply]: the
    reply itself when it is not a dictionary, the value under [result]
    when that is not one. *)
Definition unreadable (reply : json) : option json :=
  match reply with
  | JNull => None
  | JDict d =>
      match d !! "result" with
      | None | Some (JDict _) => None
      | Some v => Some v
      end
  | v => Some v
  end.

(** The exception a tool reports in its [error] field, when the field was
    built from one. *)
Definition reported_exception (d : gmap string pyval) : option exn :=
  match d !! "error" with
  | Some (PStr [Lit _; FmtExn e]) => Some e
  | _ => None
  end.

(** The datagram [_send_command] sends, when it gets to send one. *)
Definition datagram (self : WizBulbController) (command : json)
    : payload * address :=
  (Doc command, (bulb_ip self, port self)).

(** The value a method returns for a reply it can read:
    [result.success], or [False] when there is none. *)
Definition success_value (reply : json) : json :=
  match reply with
  | JDict d =>
      match d !! "result" with
      | Some (JDict r) => default (JBool false) (r !! "success")
      | _ => JBool false
      end
  | _ => JBool false
  end.

(** The text of a string-valued field of a report, when it is a plain
    string. *)
Definition status_of (d : gmap string pyval) : option string :=
  match d !! "status" with
  | Some (PVal (JStr text)) => Some text
  | _ => None
  end.

(** The datagram that probes a candidate address. *)
Definition probe_datagram (ip : string) : payload * address :=
  (Doc get_status_command, (ip, 38899)).

(** The line [discover_bulbs] prints when the sweep raises [e]. *)
Definition sweep_failure_line (e : exn) : fstring :=
  match e with
  | TimeoutExpired => [Lit "Network scan timed out"]
  | FileNotFoundError _ =>
      [Lit "nmap not found. Please install nmap to use bulb discovery."]
  | _ => [Lit "Error during discovery: "; FmtExn e]
  end.

(** The fields of a [result] document that [get_bulb_status] reads. *)
Definition status_fields : list string :=
  ["state"; "dimming"; "r"; "g"; "b"; "temp"; "sceneId"].

(** ** The words a regular expression matches *)

(** The words of a pattern, read off its structure; a boundary takes no
    character. *)
Fixpoint lang (r : Regex.regex) (w : list ascii) : Prop :=
  match r with
  | Regex.Class p => exists c, w = [c] /\ p c = true
  | Regex.Boundary => w = []
  | Regex.Seq r1 r2 => exists u v, w = (u ++ v)%list /\ lang r1 u /\ lang r2 v
  | Regex.Repeat r lo hi =>
      exists ws,
        w = concat ws /\ Forall (lang r) ws
        /\ (lo <= length ws)%nat /\ (length ws <= hi)%nat
  end.

(** One to three decimal digits. *)
Definition digits (w : list ascii) : Prop :=
  Forall (fun c => Regex.is_digit c = true) w
  /\ (1 <= length w)%nat /\ (length w <= 3)%nat.

(** Four groups of one to three digits, separated by dots. *)
Definition dotted_quad (w : list ascii) : Prop :=
  exists a b c d,
    w = (a ++ "."%char :: b ++ "."%char :: c ++ "."%char :: d)%list
    /\ digits a /\ digits b /\ digits c /\ digits d.

(** ** What a computation sends and raises *)

(** [confined addr n P m]: from any state, [m] adds at most [n] datagrams
    to the wire, all of them addressed to [addr], and raises only
    exceptions in [P]. *)
Definition confined {A} (addr : address) (n : nat) (P : exn -> Prop)
    (m : M A) : Prop :=
  forall s,
    (exists l,
        wire (snd (m s)) = (wire s ++ l)%list
        /\ Forall (fun p => snd p = addr) l
        /\ (length l <= n)%nat)
    /\ (forall e, fst (m s) = Raise e -> P e).

(** The [AttributeError]s of a reply that is not a dictionary. *)
Definition no_get_error (e : exn) : Prop := exists v, e = Status.no_get v.

(** ** Environments that tell addresses apart, and valid inputs *)

(** Datagrams sent to an address in [who] are answered by the document
    [j]; the others are not answered. *)
Definition answering_only (who : string -> bool) (j : json) : network :=
  reliable (fun so =>
    match last (so_sent so) with
    | Some (_, (ip, _)) => if who ip then inr (Doc j) else inl socket_timeout
    | None => inl socket_timeout
    end).

(** Text made of ASCII characters only, as [nmap] prints it. *)
Definition ascii_only (text : string) : bool :=
  forallb (fun c => N.ltb (N_of_ascii c) 128) (list_ascii_of_string text).

(** A timeout that [sock.settimeout] accepts: a number of seconds from
    zero to a day.  The call raises on a negative number, on NaN and on
    a number too large for the time value of the system. *)
Definition usable_timeout (t : float) : bool :=
  (PrimFloat.leb 0%float t && PrimFloat.leb t 86400%float)%bool.

(** * Properties *)

(** ** One exchange *)

Section SendCommand.

Variable net : network.
Variable self : WizBulbController.
Variable command : json.
Variable s : state.

Let o := exchange net s self command.

Ltac run_exchange :=
  subst o; unfold exchange, _send_command, try_except, bind, socket_socket,
    settimeout, sendto, recvfrom, close, lift, ret, print, json_dumps,
    json_loads, set_sockets, destination;
  simpl;
  repeat first
    [ rewrite lookup_insert_eq; simpl
    | match goal with
      | |- context [net_socket ?n ?fd] =>
          destruct (net_socket n fd) eqn:?; simpl
      | |- context [net_sendto ?n ?fd ?m ?a] =>
          destruct (net_sendto n fd m a) eqn:?; simpl
      | |- context [net_recvfrom ?n ?fd ?so ?b] =>
          destruct (net_recvfrom n fd so b) as [?|[?|? ?]] eqn:?; simpl
      end ].

Lemma send_command_result :
  fst (_send_command net self command s) = Ret (reply_of o).
Proof.
  run_exchange; try reflexivity.
  all: match goal with |- context [match ?e with ValueError _ => _ | _ => _ end] => destruct e end;
    reflexivity.
Qed.

Lemma send_command_state :
  snd (_send_command net self command s) = after_exchange s self command o.
Proof.
  run_exchange; unfold after_exchange, printed_by; simpl.
  all: try match goal with
         | |- context [match ?e with ValueError _ => _ | _ => _ end] => destruct e
         end; simpl.
  all: rewrite ?app_nil_r, ?insert_insert_eq, ?delete_insert_eq; reflexivity.
Qed.

Lemma send_command_run :
  _send_command net self command s
  = (Ret (reply_of o), after_exchange s self command o).
Proof.
  rewrite <- send_command_result, <- send_command_state.
  apply surjective_pairing.
Qed.

End SendCommand.

(** ** Argument validation *)

Lemma between_false lo hi x :
  between lo hi x = false -> negb ((lo <=? x) && (x <=? hi)) = true.
Proof. unfold between. intros ->. reflexivity. Qed.

Lemma between_true lo hi x :
  between lo hi x = true -> negb ((lo <=? x) && (x <=? hi)) = false.
Proof. unfold between. intros ->. reflexivity. Qed.

Ltac split_range H :=
  repeat match type of H with
    | (_ && _)%bool = true => apply andb_prop in H; destruct H as [H ?]
    end.

(** C1, as amended.  An out-of-range argument never reaches the network.
    The methods [set_brightness], [set_rgb_color], [set_color_temperature]
    and [set_speed] raise [ValueError] and leave the program state as it
    was; the tools [set_bulb_brightness], [set_bulb_rgb_color],
    [set_bulb_color_temperature] and [set_bulb_scene] return a dictionary
    with [success = False] and an [error] message, again with the state
    unchanged. *)
Theorem out_of_range_never_sent (net : network) (s : state) :
  (forall self c,
      checked_by_method c = true -> in_range c = false ->
      exists msg, perform net self c s = (Raise (ValueError msg), s))
  /\ (forall t,
         tool_in_range t = false ->
         exists d msg,
           Server.invoke net t s = (Ret d, s)
           /\ d !! "success" = Some (PVal (JBool false))
           /\ d !! "error" = Some (PVal (JStr msg))).
Proof.
  split.
  - intros self c Hchecked Hrange.
    destruct c; try discriminate; simpl in Hrange |- *.
    + unfold set_brightness. rewrite (between_false _ _ _ Hrange). eauto.
    + unfold set_rgb_color. simpl.
      destruct (between 0 255 r && between 0 255 g && between 0 255 b)%bool eqn:Hrgb.
      * simpl in Hrange. split_range Hrgb.
        unfold between in *.
        repeat match goal with H : (_ && _)%bool = true |- _ => rewrite H; clear H end.
        simpl. rewrite Hrange. simpl. eauto.
      * unfold between in Hrgb. rewrite andb_true_r, andb_assoc, Hrgb. simpl. eauto.
    + unfold set_color_temperature.
      destruct (between 2200 6500 temp) eqn:Htemp.
      * simpl in Hrange. rewrite (between_true _ _ _ Htemp).
        rewrite (between_false _ _ _ Hrange). eauto.
      * rewrite (between_false _ _ _ Htemp). eauto.
    + unfold set_speed. rewrite (between_false _ _ _ Hrange). eauto.
  - intros t Hrange.
    destruct t; try discriminate; simpl in Hrange |- *.
    + unfold Server.set_bulb_brightness, try_except.
      rewrite (between_false _ _ _ Hrange). simpl. eauto 10.
    + unfold Server.set_bulb_rgb_color, try_except. simpl.
      destruct (between 0 255 r && between 0 255 g && between 0 255 b)%bool eqn:Hrgb.
      * simpl in Hrange. split_range Hrgb.
        unfold between in *.
        repeat match goal with H : (_ && _)%bool = true |- _ => rewrite H; clear H end.
        simpl. rewrite Hrange. simpl. eauto 10.
      * unfold between in Hrgb. rewrite andb_true_r, andb_assoc, Hrgb. simpl. eauto 10.
    + unfold Server.set_bulb_color_temperature, try_except.
      destruct (between 2200 6500 temperature) eqn:Htemp.
      * simpl in Hrange. rewrite (between_true _ _ _ Htemp).
        rewrite (between_false _ _ _ Hrange). simpl. eauto 10.
      * rewrite (between_false _ _ _ Htemp). simpl. eauto 10.
    + unfold Server.set_bulb_scene, try_except.
      rewrite (between_false _ _ _ Hrange). simpl. eauto 10.
Qed.

(** C1, as stated, fails twice: [set_brightness 5] raises instead of
    returning a value, and [set_scene 0] puts a datagram on the wire. *)
Lemma out_of_range_raises_or_is_sent :
  in_range (SetBrightness 5) = false
  /\ fst (perform silent Server.bulb (SetBrightness 5) initial_state)
     = Raise (ValueError "Brightness must be between 10 and 100")
  /\ in_range (SetScene 0) = false
  /\ wire (snd (perform silent Server.bulb (SetScene 0) initial_state))
     = [(Doc (set_scene_command 0), ("192.168.1.8", 38899))].
Proof. repeat split; vm_compute; reflexivity. Qed.

Lemma out_of_range_never_sent_witness :
  (exists msg,
      perform silent Server.bulb (SetSpeed 500) initial_state
      = (Raise (ValueError msg), initial_state))
  /\ (exists d msg,
         Server.invoke silent (Server.SetBulbScene 33) initial_state
         = (Ret d, initial_state)
         /\ d !! "success" = Some (PVal (JBool false))
         /\ d !! "error" = Some (PVal (JStr msg))).
Proof.
  split.
  - apply (proj1 (out_of_range_never_sent silent initial_state)); reflexivity.
  - apply (proj2 (out_of_range_never_sent silent initial_state)); reflexivity.
Defined.

(** ** Failures of the exchange *)

(** C3, as amended.  Whatever makes the exchange fail, a timeout or a
    reply that does not parse, [_send_command] returns [None]: the same
    value, with no error kind and without the bytes received.  The two
    differ only in the line printed. *)
Theorem failures_return_none (net : network) (self : WizBulbController)
    (command : json) (s : state) (e : exn) :
  failure_of (exchange net s self command) = Some e ->
  fst (_send_command net self command s) = Ret JNull
  /\ stdout (snd (_send_command net self command s))
     = (stdout s ++ [failure_line self e])%list
  /\ (failure_line self e = failure_line self socket_timeout
      <-> e = socket_timeout).
Proof.
  intros Hfail.
  rewrite send_command_result, send_command_state.
  unfold after_exchange, printed_by. rewrite Hfail. simpl.
  split; [|split; [reflexivity|]].
  - destruct (exchange net s self command) as [?|?|?|[?|? ?]];
      try discriminate; reflexivity.
  - split; [|intros ->; reflexivity].
    destruct e; simpl; try reflexivity; intros H; discriminate H.
Qed.

Lemma failures_return_none_witness :
  fst (_send_command (garbling "<html>") Server.bulb turn_on_command initial_state)
  = Ret JNull
  /\ stdout (snd (_send_command (garbling "<html>") Server.bulb turn_on_command
                    initial_state))
     = [[Lit "Error communicating with bulb: ";
         FmtExn (JSONDecodeError "Expecting value: line 1 column 1 (char 0)")]].
Proof.
  destruct (failures_return_none (garbling "<html>") Server.bulb turn_on_command
              initial_state
              (JSONDecodeError "Expecting value: line 1 column 1 (char 0)")
              eq_refl) as (Hret & Hout & _).
  split; [exact Hret | exact Hout].
Defined.

(** C3, as stated, fails: a timeout and an unparseable reply reach the
    caller as the same value. *)
Lemma timeout_and_garbage_both_none :
  exchange silent initial_state Server.bulb get_status_command
  = RecvFailed socket_timeout
  /\ exchange (garbling "<html>") initial_state Server.bulb get_status_command
     = Received (Raw "<html>"
                   (JSONDecodeError "Expecting value: line 1 column 1 (char 0)"))
  /\ fst (_send_command silent Server.bulb get_status_command initial_state)
     = Ret JNull
  /\ fst (_send_command (garbling "<html>") Server.bulb get_status_command
            initial_state)
     = Ret JNull.
Proof. repeat split; vm_compute; reflexivity. Qed.

(** ** What a capability call returns *)

Lemma success_of_verdict (response : json) (s : state) :
  success_of response s = (verdict response, s).
Proof.
  destruct response; try reflexivity.
  unfold success_of, verdict, bind, lift.
  destruct (py_get (JDict d) "result" (JDict ∅)); reflexivity.
Qed.

Lemma in_range_checks (c : call) :
  in_range c = true ->
  match c with
  | TurnOn | TurnOff => True
  | SetBrightness brightness =>
      negb ((10 <=? brightness) && (brightness <=? 100)) = false
  | SetRgbColor r g b brightness =>
      negb (forallb (fun val => (0 <=? val) && (val <=? 255)) [r; g; b]) = false
      /\ negb ((10 <=? brightness) && (brightness <=? 100)) = false
  | SetColorTemperature temp brightness =>
      negb ((2200 <=? temp) && (temp <=? 6500)) = false
      /\ negb ((10 <=? brightness) && (brightness <=? 100)) = false
  | SetScene scene_id => negb ((1 <=? scene_id) && (scene_id <=? 32)) = false
  | SetSpeed speed => negb ((10 <=? speed) && (speed <=? 200)) = false
  end.
Proof.
  destruct c; simpl; intros H; split_range H;
    repeat match goal with
      | H : between _ _ _ = true |- _ => apply between_true in H
      end;
    auto.
  split; [|assumption].
  apply negb_false_iff in H, H1, H2. simpl. rewrite H, H1, H2. reflexivity.
Qed.

(** With its arguments in range, a call is one exchange followed by the
    reading of the reply. *)
Lemma perform_run (net : network) (self : WizBulbController) (c : call)
    (s : state) :
  in_range c = true ->
  perform net self c s
  = (verdict (reply_of (exchange net s self (command_of c))),
     after_exchange s self (command_of c) (exchange net s self (command_of c))).
Proof.
  intros Hrange. apply in_range_checks in Hrange.
  destruct c; cbn [perform command_of];
    unfold turn_on, turn_off, set_brightness, set_rgb_color,
      set_color_temperature, set_scene, set_speed;
    repeat match goal with
      | H : _ /\ _ |- _ => destruct H
      | H : negb _ = false |- _ => rewrite H; clear H
      end;
    cbv beta zeta delta [bind]; rewrite send_command_run; apply success_of_verdict.
Qed.

Lemma get_status_run (net : network) (self : WizBulbController) (s : state) :
  get_status net self s
  = (Ret (reply_of (exchange net s self get_status_command)),
     after_exchange s self get_status_command
       (exchange net s self get_status_command)).
Proof. apply send_command_run. Qed.

Lemma is_online_run (net : network) (self : WizBulbController) (s : state) :
  is_online net self s
  = (Ret (negb (is_none (reply_of (exchange net s self get_status_command)))),
     after_exchange s self get_status_command
       (exchange net s self get_status_command)).
Proof.
  unfold is_online, bind. rewrite get_status_run.
  destruct (reply_of _); reflexivity.
Qed.

(** A tool always returns a dictionary: every exception is caught. *)
Lemma invoke_returns (net : network) (t : Server.tool) (s : state) :
  exists d s', Server.invoke net t s = (Ret d, s').
Proof.
  destruct t; simpl;
    unfold Server.get_bulb_status, Server.turn_bulb_on, Server.turn_bulb_off,
      Server.set_bulb_brightness, Server.set_bulb_rgb_color,
      Server.set_bulb_color_temperature, Server.set_bulb_scene,
      Server.check_bulb_connection, try_except;
    match goal with
    | |- context [match ?m s with _ => _ end] =>
        destruct (m s) as [[?|?] ?]; eauto
    end.
Qed.

Lemma tool_call_in_range (t : Server.tool) (c : call) :
  tool_call t = Some c ->
  tool_in_range t = in_range c /\ tool_command t = command_of c.
Proof. destruct t; intros [= <-]; split; reflexivity. Qed.

Ltac enter_tool :=
  unfold Server.get_bulb_status, Server.turn_bulb_on, Server.turn_bulb_off,
    Server.set_bulb_brightness, Server.set_bulb_rgb_color,
    Server.set_bulb_color_temperature, Server.set_bulb_scene,
    Server.check_bulb_connection, try_except;
  repeat match goal with
    | H : _ /\ _ |- _ => destruct H
    | H : negb _ = false |- _ => rewrite H; clear H
    end;
  cbv beta zeta delta [bind].

(** C4.  When the exchange brings back no reply (it fails at any stage,
    the reply does not parse, or it parses to [null]), every method
    returns normally: [False] for the mutating calls and [is_online],
    [None] for [get_status]; every tool returns a dictionary that reports
    the failure.  A tool returns a dictionary whatever happens. *)
Theorem failed_exchange_returns_failure (net : network) (s : state) :
  (forall self c,
      in_range c = true ->
      reply_of (exchange net s self (command_of c)) = JNull ->
      fst (perform net self c s) = Ret (JBool false))
  /\ (forall self,
         reply_of (exchange net s self get_status_command) = JNull ->
         fst (get_status net self s) = Ret JNull
         /\ fst (is_online net self s) = Ret false)
  /\ (forall t,
         tool_in_range t = true ->
         reply_of (exchange net s Server.bulb (tool_command t)) = JNull ->
         exists d, fst (Server.invoke net t s) = Ret d /\ reports_failure t d)
  /\ (forall t, exists d s', Server.invoke net t s = (Ret d, s')).
Proof.
  split; [|split; [|split]].
  - intros self c Hrange Hnone.
    rewrite perform_run by assumption. simpl. rewrite Hnone. reflexivity.
  - intros self Hnone.
    rewrite get_status_run, is_online_run. simpl. rewrite Hnone. split; reflexivity.
  - intros t Hrange Hnone.
    destruct (tool_call t) as [c|] eqn:Hcall.
    + destruct (tool_call_in_range t c Hcall) as [Hsame Hcommand].
      rewrite Hsame in Hrange. rewrite Hcommand in Hnone.
      pose proof (perform_run net Server.bulb c s Hrange) as Hrun.
      rewrite Hnone in Hrun.
      pose proof (in_range_checks c Hrange) as Hchecks.
      destruct t; try discriminate Hcall; injection Hcall as <-;
        cbn [Server.invoke perform command_of reports_failure] in *;
        enter_tool; rewrite Hrun;
        cbv beta iota delta [verdict ret fst truthy];
        eexists; (split; [reflexivity|]); vm_compute; reflexivity.
    + destruct t; try discriminate Hcall;
        cbn [Server.invoke tool_command reports_failure] in *; enter_tool.
      * rewrite get_status_run, Hnone. cbv beta iota delta [ret fst].
        eexists; (split; [reflexivity|]); vm_compute; reflexivity.
      * rewrite is_online_run, Hnone. cbv beta iota delta [ret fst is_none negb].
        eexists; (split; [reflexivity|]); split; vm_compute; reflexivity.
  - intros t. apply invoke_returns.
Qed.

Lemma failed_exchange_returns_failure_witness :
  fst (perform silent Server.bulb (SetRgbColor 255 0 0 80) initial_state)
  = Ret (JBool false)
  /\ fst (is_online (garbling "<html>") Server.bulb initial_state) = Ret false
  /\ exists d,
       fst (Server.invoke (answering JNull) Server.GetBulbStatus initial_state)
       = Ret d
       /\ reports_failure Server.GetBulbStatus d.
Proof.
  split; [|split].
  - apply (proj1 (failed_exchange_returns_failure silent initial_state));
      vm_compute; reflexivity.
  - apply (proj1 (proj2 (failed_exchange_returns_failure (garbling "<html>")
                           initial_state)));
      vm_compute; reflexivity.
  - apply (proj1 (proj2 (proj2 (failed_exchange_returns_failure (answering JNull)
                                  initial_state))));
      vm_compute; reflexivity.
Defined.

(** ** Success of a mutating call *)

Lemma verdict_true_iff (response : json) :
  verdict response = Ret (JBool true)
  <-> exists d r,
        response = JDict d
        /\ d !! "result" = Some (JDict r)
        /\ r !! "success" = Some (JBool true).
Proof.
  split.
  - destruct response as [| | | | | |d]; try discriminate.
    unfold verdict, py_get.
    destruct (d !! "result") as [[| | | | | |r]|] eqn:Hresult;
      cbn [py_get type_name]; try discriminate.
    destruct (r !! "success") as [v|] eqn:Hsuccess; [|discriminate].
    intros [= ->]. eauto.
  - intros (d & r & -> & Hresult & Hsuccess).
    unfold verdict, py_get. rewrite Hresult, Hsuccess. reflexivity.
Qed.

Lemma reply_of_dict (o : outcome) (d : gmap string json) :
  reply_of o = JDict d <-> o = Received (Doc (JDict d)).
Proof.
  split; [|intros ->; reflexivity].
  destruct o as [?|?|?|[?|? ?]]; simpl; try discriminate. intros ->. reflexivity.
Qed.

(** C5.  With its arguments in range, a mutating call returns [True]
    exactly when a datagram was received, parsed to a dictionary, and
    holds [true] under [result.success].  Against a device that answers
    every [setPilot] with success it returns [True]; a parsed reply
    without [result], or without [success] under it, gives [False].  The
    value returned is the one found under [result.success]. *)
Theorem success_iff_reply_success (net : network) (self : WizBulbController)
    (c : call) (s : state) :
  in_range c = true ->
  (fst (perform net self c s) = Ret (JBool true)
   <-> exists d r,
         exchange net s self (command_of c) = Received (Doc (JDict d))
         /\ d !! "result" = Some (JDict r)
         /\ r !! "success" = Some (JBool true))
  /\ fst (perform set_pilot_fake self c s) = Ret (JBool true)
  /\ (forall d,
         exchange net s self (command_of c) = Received (Doc (JDict d)) ->
         d !! "result" = None
         \/ (exists r, d !! "result" = Some (JDict r) /\ r !! "success" = None) ->
         fst (perform net self c s) = Ret (JBool false))
  /\ (forall d r v,
         exchange net s self (command_of c) = Received (Doc (JDict d)) ->
         d !! "result" = Some (JDict r) ->
         r !! "success" = Some v ->
         fst (perform net self c s) = Ret v).
Proof.
  intros Hrange. rewrite !perform_run by assumption. simpl.
  split; [|split; [|split]].
  - rewrite verdict_true_iff.
    split; intros (d & r & H & Hresult & Hsuccess); exists d, r;
      (split; [|split]); try assumption; apply reply_of_dict; assumption.
  - destruct c; reflexivity.
  - intros d -> [Hresult | (r & Hresult & Hsuccess)];
      cbn [reply_of verdict py_get]; rewrite Hresult;
      cbn [py_get]; rewrite ?lookup_empty, ?Hsuccess; reflexivity.
  - intros d r v -> Hresult Hsuccess.
    cbn [reply_of verdict py_get]. rewrite Hresult.
    cbn [py_get]. rewrite Hsuccess. reflexivity.
Qed.

Lemma success_iff_reply_success_witness :
  fst (perform (answering success_reply) Server.bulb (SetScene 2) initial_state)
  = Ret (JBool true).
Proof.
  apply (proj1 (success_iff_reply_success (answering success_reply) Server.bulb
                  (SetScene 2) initial_state eq_refl)).
  exists {[ "result" := JDict {[ "success" := JBool true ]} ]},
         {[ "success" := JBool true ]}.
  repeat split; reflexivity.
Defined.

(** ** Interpretation of a status reply *)

Lemma bool_decide_is_Some {A} (o : option A) :
  bool_decide (is_Some o) = match o with Some _ => true | None => false end.
Proof.
  destruct o.
  - apply bool_decide_eq_true. eauto.
  - apply bool_decide_eq_false. intros [? ?]. discriminate.
Qed.

Lemma read_status_result (d r : gmap string json) (s : state) :
  d !! "result" = Some (JDict r) ->
  Server.read_status (JDict d) s = (Ret (Status.interpretation r), s).
Proof.
  intros Hresult.
  unfold Server.read_status, Status.interpretation, Status.with_scene,
    Status.with_color, Status.with_brightness, Status.power.
  cbv beta iota zeta delta [bind lift ret py_get py_contains py_getitem].
  rewrite Hresult. cbv beta iota. rewrite !bool_decide_is_Some.
  destruct (r !! "state"), (r !! "dimming"), (r !! "r"), (r !! "g"),
    (r !! "b"), (r !! "temp"), (r !! "sceneId"); reflexivity.
Qed.

Lemma read_status_no_result (d : gmap string json) (s : state) :
  d !! "result" = None ->
  Server.read_status (JDict d) s = (Ret (Status.interpretation ∅), s).
Proof.
  intros Hresult.
  unfold Server.read_status.
  cbv beta iota zeta delta [bind lift ret py_get py_contains py_getitem].
  rewrite Hresult. reflexivity.
Qed.

Lemma read_status_bad_result (d : gmap string json) (v : json) (s : state) :
  d !! "result" = Some v ->
  (forall r, v <> JDict r) ->
  Server.read_status (JDict d) s = (Raise (Status.no_get v), s).
Proof.
  intros Hresult Hv.
  unfold Server.read_status.
  cbv beta iota zeta delta [bind lift ret py_get py_contains py_getitem].
  rewrite Hresult. destruct v; try reflexivity. destruct (Hv d0); reflexivity.
Qed.

Lemma read_status_bad_reply (v : json) (s : state) :
  (forall d, v <> JDict d) ->
  Server.read_status v s = (Raise (Status.no_get v), s).
Proof.
  intros Hv. destruct v; try reflexivity. destruct (Hv d); reflexivity.
Qed.

Lemma get_bulb_status_run (net : network) (s : state) :
  Server.get_bulb_status net s
  = (Ret (Status.report
            (reply_of (exchange net s Server.bulb get_status_command))),
     after_exchange s Server.bulb get_status_command
       (exchange net s Server.bulb get_status_command)).
Proof.
  unfold Server.get_bulb_status, try_except.
  cbv beta zeta delta [bind]. rewrite get_status_run.
  destruct (reply_of _) as [| | | | | |d] eqn:Hreply;
    try (rewrite read_status_bad_reply by discriminate); try reflexivity.
  cbn [Status.report].
  destruct (d !! "result") as [v|] eqn:Hresult.
  - destruct v;
      try (rewrite (read_status_bad_result d _ _ Hresult) by discriminate;
           reflexivity).
    rewrite (read_status_result d _ _ Hresult). reflexivity.
  - rewrite (read_status_no_result d _ Hresult). reflexivity.
Qed.

(** C6.  The dictionary [get_bulb_status] builds from a parsed status
    reply is the interpretation of its [result] document: power from
    [state], brightness when [dimming] is present, the RGB triple when
    [r], [g] and [b] are present and only otherwise the colour
    temperature.  For [r=255, g=0, b=0, dimming=80, state=true] it reads
    on, 80%, RGB(255, 0, 0), without colour temperature or scene; for
    [temp=4000, dimming=100, state=true] it reads on, 100%, 4000K,
    without RGB. *)
Theorem status_interpretation (net : network) (s : state)
    (d r : gmap string json) :
  exchange net s Server.bulb get_status_command = Received (Doc (JDict d)) ->
  d !! "result" = Some (JDict r) ->
  fst (Server.get_bulb_status net s) = Ret (Status.interpretation r)
  /\ (forall report,
         fst (Server.get_bulb_status (answering rgb_reply) s) = Ret report ->
         rendered (report !! "status") = Some "online"
         /\ rendered (report !! "state") = Some "on"
         /\ rendered (report !! "brightness") = Some "80%"
         /\ rendered (report !! "color") = Some "RGB(255, 0, 0)"
         /\ report !! "color_temperature" = None
         /\ report !! "scene_id" = None)
  /\ (forall report,
         fst (Server.get_bulb_status (answering white_reply) s) = Ret report ->
         rendered (report !! "status") = Some "online"
         /\ rendered (report !! "state") = Some "on"
         /\ rendered (report !! "brightness") = Some "100%"
         /\ rendered (report !! "color_temperature") = Some "4000K"
         /\ report !! "color" = None).
Proof.
  intros Hreply Hresult. rewrite !get_bulb_status_run. cbn [fst].
  split; [|split].
  - rewrite Hreply. cbn [reply_of Status.report]. rewrite Hresult. reflexivity.
  - intros report [= <-]. repeat split; vm_compute; reflexivity.
  - intros report [= <-]. repeat split; vm_compute; reflexivity.
Qed.

Lemma status_interpretation_witness :
  fst (Server.get_bulb_status (answering rgb_reply) initial_state)
  = Ret {[ "bulb_ip" := Server.str "192.168.1.8";
           "status" := Server.str "online";
           "state" := Server.str "on";
           "brightness" := PStr [Fmt (JInt 80); Lit "%"];
           "color" := PStr [Lit "RGB("; Fmt (JInt 255); Lit ", "; Fmt (JInt 0);
                            Lit ", "; Fmt (JInt 0); Lit ")"] ]}.
Proof.
  refine (eq_trans
            (proj1 (status_interpretation (answering rgb_reply) initial_state
                      {[ "result" :=
                           JDict {[ "r" := JInt 255; "g" := JInt 0; "b" := JInt 0;
                                    "dimming" := JInt 80; "state" := JBool true ]} ]}
                      {[ "r" := JInt 255; "g" := JInt 0; "b" := JInt 0;
                         "dimming" := JInt 80; "state" := JBool true ]}
                      eq_refl eq_refl)) _).
  vm_compute. reflexivity.
Defined.

Lemma interpretation_fields (r : gmap string json) :
  Status.interpretation r !! "color"
  = match r !! "r", r !! "g", r !! "b" with
    | Some red, Some green, Some blue =>
        Some (PStr (Server.rgb_text red green blue))
    | _, _, _ => None
    end
  /\ Status.interpretation r !! "color_temperature"
     = match r !! "r", r !! "g", r !! "b" with
       | Some _, Some _, Some _ => None
       | _, _, _ => (fun temp => PStr [Fmt temp; Lit "K"]) <$> r !! "temp"
       end
  /\ Status.interpretation r !! "scene_id" = PVal <$> r !! "sceneId"
  /\ Status.interpretation r !! "brightness"
     = (fun dimming => PStr [Fmt dimming; Lit "%"]) <$> r !! "dimming".
Proof.
  unfold Status.interpretation, Status.with_scene, Status.with_color,
    Status.with_brightness.
  destruct (r !! "dimming"), (r !! "r"), (r !! "g"), (r !! "b"),
    (r !! "temp"), (r !! "sceneId");
    repeat split; reflexivity.
Qed.

(** C7, as amended.  Whatever the reply, the dictionary returned by
    [get_bulb_status] never holds both an RGB colour and a colour
    temperature; the scene is reported whenever the reply has [sceneId],
    next to whichever colour field is there. *)
Theorem color_and_temperature_exclusive (net : network) (s : state) :
  exists report,
    fst (Server.get_bulb_status net s) = Ret report
    /\ ~ (is_Some (report !! "color")
          /\ is_Some (report !! "color_temperature"))
    /\ (forall d r,
           reply_of (exchange net s Server.bulb get_status_command) = JDict d ->
           d !! "result" = Some (JDict r) ->
           report !! "scene_id" = PVal <$> r !! "sceneId").
Proof.
  rewrite get_bulb_status_run. cbn [fst]. eexists. split; [reflexivity|].
  assert (Hnone : forall r,
             ~ (is_Some (Status.interpretation r !! "color")
                /\ is_Some (Status.interpretation r !! "color_temperature"))).
  { intros r. destruct (interpretation_fields r) as (-> & -> & _).
    destruct (r !! "r"), (r !! "g"), (r !! "b");
      intros [[? H1] [? H2]]; discriminate. }
  assert (Hfailed : forall e,
             ~ (is_Some (Status.failed e !! "color")
                /\ is_Some (Status.failed e !! "color_temperature"))).
  { intros e [[? H] _]. discriminate H. }
  split.
  - destruct (reply_of _) as [| | | | | |d]; cbn [Status.report];
      [ intros [[? H] _]; discriminate H
      | exact (Hfailed _) .. | ].
    destruct (d !! "result") as [[| | | | | |r]|];
      [ exact (Hfailed _) .. | exact (Hnone _) | exact (Hnone _) ].
  - intros d r -> Hresult. cbn [Status.report]. rewrite Hresult.
    apply interpretation_fields.
Qed.

(** C7, as stated, fails: a reply with the three channels and a scene
    identifier is reported with both. *)
Lemma color_and_scene_together :
  exists report,
    fst (Server.get_bulb_status (answering rgb_scene_reply) initial_state)
    = Ret report
    /\ rendered (report !! "color") = Some "RGB(255, 0, 0)"
    /\ report !! "scene_id" = Some (PVal (JInt 0)).
Proof. eexists. repeat split; vm_compute; reflexivity. Qed.

Lemma color_and_temperature_exclusive_witness :
  exists report,
    fst (Server.get_bulb_status (answering white_reply) initial_state)
    = Ret report
    /\ ~ (is_Some (report !! "color")
          /\ is_Some (report !! "color_temperature")).
Proof.
  destruct (color_and_temperature_exclusive (answering white_reply) initial_state)
    as (report & Hrun & Hexclusive & _).
  exists report. split; assumption.
Defined.

(** C10.  A reply that parses to a dictionary without a [result] field is
    reported as an online bulb that is off, with no other field: the very
    dictionary reported for a reply [{"result": {"state": false}}]. *)
Theorem missing_result_reads_as_off (net : network) (s : state)
    (d : gmap string json) :
  exchange net s Server.bulb get_status_command = Received (Doc (JDict d)) ->
  d !! "result" = None ->
  fst (Server.get_bulb_status net s)
  = Ret {[ "bulb_ip" := Server.str Server.BULB_IP;
           "status" := Server.str "online";
           "state" := Server.str "off" ]}
  /\ fst (Server.get_bulb_status net s)
     = fst (Server.get_bulb_status
              (answering (JDict {[ "result" := JDict {[ "state" := JBool false ]} ]}))
              s).
Proof.
  intros Hreply Hresult. rewrite !get_bulb_status_run. cbn [fst].
  rewrite Hreply. cbn [reply_of Status.report]. rewrite Hresult.
  split; vm_compute; reflexivity.
Qed.

Lemma missing_result_reads_as_off_witness :
  fst (Server.get_bulb_status (answering (JDict ∅)) initial_state)
  = Ret {[ "bulb_ip" := Server.str Server.BULB_IP;
           "status" := Server.str "online";
           "state" := Server.str "off" ]}.
Proof.
  apply (missing_result_reads_as_off (answering (JDict ∅)) initial_state ∅);
    reflexivity.
Defined.

(** ** Discovery *)

Section Scan.

Variable net : network.
Variable subprocess_run : list string -> Z -> exn + string.

(** Whether an address answers does not depend on when it is probed. *)
Variable responds : string -> bool.
Hypothesis stable : forall ip s, answers net ip s = responds ip.

Lemma discover_loop_result (ips bulb_ips : list string) (s : state) :
  fst (discover_loop net ips bulb_ips s)
  = Ret (bulb_ips ++ List.filter responds ips)%list.
Proof.
  revert bulb_ips s.
  induction ips as [|ip ips' IH]; intros bulb_ips s.
  - cbn. rewrite app_nil_r. reflexivity.
  - cbn [discover_loop List.filter]. cbv beta zeta delta [bind].
    rewrite is_online_run. fold (probe ip). fold (answers net ip s).
    rewrite stable.
    destruct (responds ip).
    + cbv beta iota delta [print]. rewrite IH, <- app_assoc. reflexivity.
    + apply IH.
Qed.

Lemma discover_bulbs_result (network_range out : string) (s : state) :
  subprocess_run ["nmap"; "-sn"; network_range] 120 = inr out ->
  fst (discover_bulbs net subprocess_run network_range s)
  = Ret (List.filter responds (Regex.findall Regex.ipv4 out)).
Proof.
  intros Hrun.
  unfold discover_bulbs, try_except, run. rewrite Hrun.
  cbv beta iota zeta delta [bind ret].
  pose proof (discover_loop_result (Regex.findall Regex.ipv4 out) [] s) as Hloop.
  destruct (discover_loop net _ [] s) as [[bulb_ips|e] s'];
    cbn [fst] in Hloop; [|discriminate].
  exact Hloop.
Qed.

End Scan.

(** C8, as amended.  When each candidate either answers the probe or does
    not, whenever it is probed, the scan returns the candidates that
    answer, in scan order, each as often as it is listed: without
    duplicates when the candidates have none.  To answer is to send any
    datagram that parses to something other than [null]; the shape of
    the reply is not looked at. *)
Theorem discovery_returns_answering (net : network)
    (subprocess_run : list string -> Z -> exn + string)
    (responds : string -> bool) (s : state) :
  (forall ip s, answers net ip s = responds ip) ->
  (forall ips, fst (discover_loop net ips [] s) = Ret (List.filter responds ips))
  /\ (forall ips, List.NoDup ips -> List.NoDup (List.filter responds ips))
  /\ (forall network_range out,
         subprocess_run ["nmap"; "-sn"; network_range] 120 = inr out ->
         ascii_only out = true ->
         fst (discover_bulbs net subprocess_run network_range s)
         = Ret (List.filter responds (Regex.findall Regex.ipv4 out))).
Proof.
  intros Hstable. split; [|split].
  - intros ips. apply (discover_loop_result net responds Hstable ips [] s).
  - intros ips. apply List.NoDup_filter.
  - intros network_range out Hrun _.
    apply (discover_bulbs_result net subprocess_run responds Hstable _ _ _ Hrun).
Qed.

Lemma answering_only_stable (who : string -> bool) (j : json) (ip : string)
    (s : state) :
  j <> JNull -> answers (answering_only who j) ip s = who ip.
Proof.
  intros Hj. unfold answers, exchange, answering_only, reliable, probe, init,
    destination.
  cbn [net_socket net_sendto net_recvfrom so_sent bulb_ip port last].
  destruct (who ip); cbn [reply_of is_none negb]; [|reflexivity].
  destruct j; try reflexivity. destruct Hj. reflexivity.
Qed.

Lemma discovery_returns_answering_witness :
  fst (discover_loop (answering_only (String.eqb "10.0.0.9") white_reply)
         ["10.0.0.7"; "10.0.0.9"; "10.0.0.8"; "10.0.0.9"] [] initial_state)
  = Ret ["10.0.0.9"; "10.0.0.9"]
  /\ List.NoDup (List.filter (String.eqb "10.0.0.9")
                   ["10.0.0.7"; "10.0.0.9"; "10.0.0.8"])
  /\ fst (discover_bulbs (answering_only (String.eqb "10.0.0.9") white_reply)
            (finding "Nmap scan report for 10.0.0.7 Host is up. Nmap scan report for 10.0.0.9 Host is up. Nmap scan report for 10.0.0.8 Host is up.")
            "10.0.0.0/24" initial_state)
     = Ret ["10.0.0.9"].
Proof.
  destruct (discovery_returns_answering
              (answering_only (String.eqb "10.0.0.9") white_reply)
              (finding "Nmap scan report for 10.0.0.7 Host is up. Nmap scan report for 10.0.0.9 Host is up. Nmap scan report for 10.0.0.8 Host is up.")
              (String.eqb "10.0.0.9") initial_state)
    as (Hloop & Hnodup & Hscan).
  - intros ip s. apply answering_only_stable. discriminate.
  - split; [|split].
    + rewrite Hloop. reflexivity.
    + apply Hnodup. repeat constructor; cbn; intuition discriminate.
    + rewrite (Hscan "10.0.0.0/24" _ eq_refl eq_refl). vm_compute. reflexivity.
Defined.

(** C8, as stated, fails: a reply without the expected shape makes its
    sender a bulb, and a candidate listed twice is returned twice. *)
Lemma any_reply_is_a_bulb :
  expected_shape error_reply = false
  /\ fst (discover_loop (answering error_reply) ["10.0.0.7"; "10.0.0.7"] []
            initial_state)
     = Ret ["10.0.0.7"; "10.0.0.7"].
Proof. split; vm_compute; reflexivity. Qed.

(** C9, as amended.  When the host sweep exceeds its bound of 120
    seconds, [discover_bulbs] prints one line and returns the empty list.
    No probe has been sent by then: nothing was found, and the value
    returned is the one returned after a sweep that completes and
    reports no address. *)
Theorem sweep_timeout_returns_empty (net : network)
    (subprocess_run : list string -> Z -> exn + string)
    (network_range : string) (s : state) :
  subprocess_run ["nmap"; "-sn"; network_range] 120 = inl TimeoutExpired ->
  discover_bulbs net subprocess_run network_range s
  = (Ret [],
     {| created := created s; sockets := sockets s; wire := wire s;
        stdout := stdout s ++ [[Lit "Network scan timed out"]] |})
  /\ (forall completed out,
         completed ["nmap"; "-sn"; network_range] 120 = inr out ->
         Regex.findall Regex.ipv4 out = [] ->
         discover_bulbs net completed network_range s = (Ret [], s)).
Proof.
  intros Hrun. split.
  - unfold discover_bulbs, try_except, run. rewrite Hrun. reflexivity.
  - intros completed out Hcompleted Hnone.
    unfold discover_bulbs, try_except, run. rewrite Hcompleted.
    cbv beta iota zeta delta [bind ret]. rewrite Hnone. reflexivity.
Qed.

Lemma sweep_timeout_returns_empty_witness :
  fst (discover_bulbs (answering white_reply) timing_out "192.168.1.0/24"
         initial_state)
  = Ret []
  /\ wire (snd (discover_bulbs (answering white_reply) timing_out
                  "192.168.1.0/24" initial_state))
     = [].
Proof.
  rewrite (proj1 (sweep_timeout_returns_empty (answering white_reply) timing_out
                    "192.168.1.0/24" initial_state eq_refl)).
  split; reflexivity.
Defined.

(** C9, as stated, fails: on a network where every address is a bulb, a
    sweep that times out yields the same value as a sweep that finds no
    host, while a sweep that completes yields the bulb. *)
Lemma sweep_timeout_like_empty_scan :
  fst (discover_bulbs (answering white_reply) timing_out "192.168.1.0/24"
         initial_state)
  = Ret []
  /\ fst (discover_bulbs (answering white_reply) (finding "") "192.168.1.0/24"
            initial_state)
     = Ret []
  /\ fst (discover_bulbs (answering white_reply)
            (finding "Nmap scan report for 192.168.1.8 Host is up.")
            "192.168.1.0/24" initial_state)
     = Ret ["192.168.1.8"].
Proof. repeat split; vm_compute; reflexivity. Qed.


(** * Further properties of the controller and of the tools *)

(** ** One datagram for each command *)

(** X1.  For a controller whose timeout [settimeout] accepts,
    [_send_command] puts the command on the wire once, addressed to the
    bulb, when the socket is created and [sendto] succeeds, and not at
    all otherwise: whatever [recvfrom] does then, no second datagram is
    sent.  Each call names one new socket. *)
Theorem send_command_sends_once (net : network) (self : WizBulbController)
    (command : json) (s : state) :
  usable_timeout (timeout self) = true ->
  wire (snd (_send_command net self command s))
  = (wire s
     ++ match net_socket net (created s),
              net_sendto net (created s) (Doc command) (bulb_ip self, port self)
        with
        | None, None => [datagram self command]
        | _, _ => []
        end)%list
  /\ created (snd (_send_command net self command s)) = S (created s).
Proof.
  intros _.
  rewrite send_command_state. unfold after_exchange, exchange, destination.
  cbn [wire created].
  destruct (net_socket net (created s)); [split; reflexivity|].
  destruct (net_sendto net (created s) _ _); [split; reflexivity|].
  destruct (net_recvfrom net _ _ _); split; reflexivity.
Qed.

Lemma send_command_sends_once_witness :
  wire (snd (_send_command silent Server.bulb turn_off_command initial_state))
  = [(Doc turn_off_command, ("192.168.1.8", 38899))]
  /\ created (snd (_send_command silent Server.bulb turn_off_command
                     initial_state))
     = 1%nat.
Proof.
  apply (send_command_sends_once silent Server.bulb turn_off_command
           initial_state).
  vm_compute. reflexivity.
Defined.

(** ** What [is_online] takes for a bulb *)

(** X2.  [is_online] never raises.  It returns [True] exactly when a
    datagram was received and parsed to something other than [null]; the
    content of the reply plays no part. *)
Theorem is_online_iff_parsed_reply (net : network) (self : WizBulbController)
    (s : state) :
  (exists online, fst (is_online net self s) = Ret online)
  /\ (fst (is_online net self s) = Ret true
      <-> exists j,
            exchange net s self get_status_command = Received (Doc j)
            /\ j <> JNull).
Proof.
  rewrite is_online_run. cbn [fst]. split; [eauto|].
  destruct (exchange net s self get_status_command) as [e|e|e|[j|bytes e]];
    cbn [reply_of is_none negb].
  1-3, 5: split; [discriminate | intros (j & Hj & _); discriminate Hj].
  destruct j; cbn [is_none negb];
    (split;
     [ first [ discriminate
             | intros _; eexists; split; [reflexivity|discriminate] ]
     | first [ reflexivity
             | intros (j & [= <-] & Hj); destruct Hj; reflexivity ] ]).
Qed.

(** ** Replies that are not dictionaries *)

Lemma verdict_by_unreadable (reply : json) :
  verdict reply
  = match unreadable reply with
    | Some v => Raise (Status.no_get v)
    | None => Ret (success_value reply)
    end.
Proof.
  destruct reply as [| | | | | |d]; try reflexivity.
  unfold verdict, unreadable, success_value, py_get.
  destruct (d !! "result") as [[| | | | | |r]|]; try reflexivity.
  destruct (r !! "success"); reflexivity.
Qed.

(** X3.  With its arguments in range, a mutating method raises exactly
    when the reply parsed to something that is not a dictionary, or holds
    under [result] something that is not one (as in [{"result": null}]):
    it raises [AttributeError] on that object, after the command has been
    sent.  For every other reply, and for no reply, it returns the
    [success] value or [False]. *)
Theorem perform_raises_iff_unreadable (net : network)
    (self : WizBulbController) (c : call) (s : state) :
  in_range c = true ->
  (forall e,
      fst (perform net self c s) = Raise e
      <-> exists v,
            unreadable (reply_of (exchange net s self (command_of c))) = Some v
            /\ e = AttributeError
                     ("'" ++ type_name v ++ "' object has no attribute 'get'"))
  /\ (unreadable (reply_of (exchange net s self (command_of c))) = None ->
      fst (perform net self c s)
      = Ret (success_value (reply_of (exchange net s self (command_of c)))))
  /\ (forall e,
         fst (perform net self c s) = Raise e ->
         exists j,
           exchange net s self (command_of c) = Received (Doc j)
           /\ wire (snd (perform net self c s))
              = (wire s ++ [datagram self (command_of c)])%list).
Proof.
  intros Hrange. rewrite perform_run by assumption. cbn [fst snd].
  rewrite verdict_by_unreadable.
  split; [|split].
  - intros e.
    destruct (unreadable _) as [v|]; split.
    + intros [= <-]. eauto.
    + intros (v' & [= <-] & ->). reflexivity.
    + discriminate.
    + intros (v' & Hv & _). discriminate Hv.
  - intros ->. reflexivity.
  - intros e.
    destruct (exchange net s self (command_of c)) as [?|?|?|[j|? ?]];
      cbn [reply_of unreadable]; try discriminate.
    intros _. eexists. split; [reflexivity|]. reflexivity.
Qed.

Lemma perform_raises_iff_unreadable_witness :
  fst (perform (answering (JDict {[ "result" := JNull ]})) Server.bulb
         (SetBrightness 50) initial_state)
  = Raise (AttributeError "'NoneType' object has no attribute 'get'").
Proof.
  apply (proj1 (perform_raises_iff_unreadable
                  (answering (JDict {[ "result" := JNull ]})) Server.bulb
                  (SetBrightness 50) initial_state eq_refl)).
  exists JNull. split; reflexivity.
Defined.

(** ** The dictionary a tool returns *)

(** A tool whose arguments are in range returns what its method returned
    under [success], with a [message], or reports the exception the
    method raised, with [success = False]. *)
Lemma invoke_in_range (net : network) (t : Server.tool) (c : call) (s : state) :
  tool_call t = Some c ->
  tool_in_range t = true ->
  exists d,
    Server.invoke net t s
    = (Ret d,
       after_exchange s Server.bulb (command_of c)
         (exchange net s Server.bulb (command_of c)))
    /\ match verdict (reply_of (exchange net s Server.bulb (command_of c))) with
       | Ret v =>
           d !! "success" = Some (PVal v)
           /\ is_Some (d !! "message")
           /\ d !! "error" = None
       | Raise e =>
           d !! "success" = Some (PVal (JBool false))
           /\ d !! "message" = None
           /\ reported_exception d = Some e
       end.
Proof.
  intros Hcall Hrange.
  destruct (tool_call_in_range t c Hcall) as [Hsame _].
  rewrite Hsame in Hrange.
  pose proof (perform_run net Server.bulb c s Hrange) as Hrun.
  pose proof (in_range_checks c Hrange) as Hchecks.
  destruct t; try discriminate Hcall; injection Hcall as <-;
    cbn [Server.invoke perform command_of] in *;
    enter_tool; rewrite Hrun;
    destruct (verdict _) as [v|e];
    cbv beta iota delta [ret];
    eexists; (split; [reflexivity|]);
    (split; [|split]);
    first [ vm_compute; reflexivity | eexists; vm_compute; reflexivity ].
Qed.

(** X4.  For a tool with its arguments in range, the [success] field of
    the dictionary returned is [True] exactly when the bulb's reply holds
    [true] under [result.success]; the dictionary carries a [message]
    when the method returned and an [error] when it raised, never both. *)
Theorem tool_success_iff_reply_success (net : network) (t : Server.tool)
    (c : call) (s : state) :
  tool_call t = Some c ->
  tool_in_range t = true ->
  exists d,
    fst (Server.invoke net t s) = Ret d
    /\ (d !! "success" = Some (PVal (JBool true))
        <-> exists reply r,
              exchange net s Server.bulb (command_of c)
              = Received (Doc (JDict reply))
              /\ reply !! "result" = Some (JDict r)
              /\ r !! "success" = Some (JBool true))
    /\ (is_Some (d !! "message") <-> d !! "error" = None)
    /\ (is_Some (d !! "error")
        <-> is_Some (unreadable
                       (reply_of (exchange net s Server.bulb (command_of c))))).
Proof.
  intros Hcall Hrange.
  destruct (invoke_in_range net t c s Hcall Hrange) as (d & Hrun & Hfields).
  exists d. rewrite Hrun. split; [reflexivity|].
  pose proof (verdict_true_iff
                (reply_of (exchange net s Server.bulb (command_of c)))) as Htrue.
  rewrite verdict_by_unreadable in Hfields, Htrue.
  unfold reported_exception in Hfields.
  destruct (unreadable _) as [v|].
  - destruct Hfields as (Hsuccess & Hmessage & Herror).
    split; [|split].
    + rewrite Hsuccess. split; [discriminate|].
      intros (reply & r & Hreply & Hr & Hs).
      assert (H : Raise (Status.no_get v) = Ret (JBool true)).
      { apply Htrue. exists reply, r. rewrite Hreply. auto. }
      discriminate H.
    + rewrite Hmessage. split; [intros [? H]; discriminate H|].
      intros H. rewrite H in Herror. discriminate Herror.
    + split; [eauto|]. intros _.
      destruct (d !! "error"); [eauto|discriminate Herror].
  - destruct Hfields as (Hsuccess & Hmessage & Herror).
    split; [|split].
    + rewrite Hsuccess. split.
      * intros [= Hv]. rewrite Hv in Htrue.
        destruct (proj1 Htrue eq_refl) as (reply & r & Hreply & Hr & Hs).
        exists reply, r. split; [apply reply_of_dict; exact Hreply|auto].
      * intros (reply & r & Hreply & Hr & Hs).
        assert (H : Ret (success_value
                           (reply_of (exchange net s Server.bulb (command_of c))))
                    = Ret (JBool true)).
        { apply Htrue. exists reply, r. rewrite Hreply. auto. }
        injection H as ->. reflexivity.
    + split; auto.
    + rewrite Herror. split; intros [? H]; discriminate H.
Qed.

Lemma tool_success_iff_reply_success_witness :
  exists d,
    fst (Server.invoke (answering success_reply) (Server.SetBulbBrightness 30)
           initial_state)
    = Ret d
    /\ d !! "success" = Some (PVal (JBool true)).
Proof.
  destruct (tool_success_iff_reply_success (answering success_reply)
              (Server.SetBulbBrightness 30) (SetBrightness 30) initial_state
              eq_refl eq_refl) as (d & Hrun & Hsuccess & _).
  exists d. split; [exact Hrun|].
  apply Hsuccess.
  exists {[ "result" := JDict {[ "success" := JBool true ]} ]},
         {[ "success" := JBool true ]}.
  repeat split; reflexivity.
Defined.

(** The messages of the range checks, tool by tool. *)
Lemma invoke_out_of_range (net : network) (t : Server.tool) (s : state) :
  tool_in_range t = false ->
  exists d msg,
    Server.invoke net t s = (Ret d, s)
    /\ d !! "error" = Some (PVal (JStr msg))
    /\ d !! "success" = Some (PVal (JBool false))
    /\ forall self c,
         tool_call t = Some c -> checked_by_method c = true ->
         perform net self c s = (Raise (ValueError msg), s).
Proof.
  intros Hrange.
  destruct t; try discriminate; cbn [tool_in_range] in Hrange;
    cbn [Server.invoke].
  - unfold Server.set_bulb_brightness, try_except.
    rewrite (between_false _ _ _ Hrange).
    eexists _, _. repeat split.
    intros self c [= <-] _. cbn [perform]. unfold set_brightness.
    rewrite (between_false _ _ _ Hrange). reflexivity.
  - unfold Server.set_bulb_rgb_color, try_except.
    destruct (forallb (fun val => (0 <=? val) && (val <=? 255)) [r; g; b])
      eqn:Hrgb; cbn [negb].
    + assert (Hb : between 10 100 brightness = false).
      { cbn [forallb] in Hrgb. unfold between in Hrange |- *.
        destruct (0 <=? r), (r <=? 255), (0 <=? g), (g <=? 255), (0 <=? b),
          (b <=? 255); cbn [andb] in Hrgb, Hrange;
          try discriminate Hrgb; exact Hrange. }
      rewrite (between_false _ _ _ Hb).
      eexists _, _. repeat split.
      intros self c [= <-] _. cbn [perform]. unfold set_rgb_color.
      rewrite Hrgb, (between_false _ _ _ Hb). reflexivity.
    + eexists _, _. repeat split.
      intros self c [= <-] _. cbn [perform]. unfold set_rgb_color.
      rewrite Hrgb. reflexivity.
  - unfold Server.set_bulb_color_temperature, try_except.
    destruct (between 2200 6500 temperature) eqn:Htemp.
    + cbn [andb] in Hrange.
      rewrite (between_true _ _ _ Htemp), (between_false _ _ _ Hrange).
      eexists _, _. repeat split.
      intros self c [= <-] _. cbn [perform]. unfold set_color_temperature.
      rewrite (between_true _ _ _ Htemp), (between_false _ _ _ Hrange).
      reflexivity.
    + rewrite (between_false _ _ _ Htemp).
      eexists _, _. repeat split.
      intros self c [= <-] _. cbn [perform]. unfold set_color_temperature.
      rewrite (between_false _ _ _ Htemp). reflexivity.
  - unfold Server.set_bulb_scene, try_except.
    rewrite (between_false _ _ _ Hrange).
    eexists _, _. repeat split.
    intros self c [= <-] Hchecked. discriminate Hchecked.
Qed.

(** X5.  A tool and its method agree on a rejected argument: where the
    method checks the range, the [error] string the tool returns is the
    message of the [ValueError] the method raises for the same arguments,
    the first violated bound in the order of the arguments. *)
Theorem tool_and_method_reject_alike (net : network) (t : Server.tool)
    (c : call) (self : WizBulbController) (s : state) :
  tool_call t = Some c ->
  checked_by_method c = true ->
  tool_in_range t = false ->
  exists d msg,
    fst (Server.invoke net t s) = Ret d
    /\ d !! "error" = Some (PVal (JStr msg))
    /\ fst (perform net self c s) = Raise (ValueError msg).
Proof.
  intros Hcall Hchecked Hrange.
  destruct (invoke_out_of_range net t s Hrange)
    as (d & msg & Hrun & Herror & _ & Hmethod).
  exists d, msg. rewrite Hrun, (Hmethod self c Hcall Hchecked). auto.
Qed.

Lemma tool_and_method_reject_alike_witness :
  exists d,
    fst (Server.invoke silent (Server.SetBulbRgbColor 300 0 0 5) initial_state)
    = Ret d
    /\ d !! "error" = Some (PVal (JStr "RGB values must be between 0 and 255"))
    /\ fst (perform silent Server.bulb (SetRgbColor 300 0 0 5) initial_state)
       = Raise (ValueError "RGB values must be between 0 and 255").
Proof.
  destruct (tool_and_method_reject_alike silent (Server.SetBulbRgbColor 300 0 0 5)
              (SetRgbColor 300 0 0 5) Server.bulb initial_state
              eq_refl eq_refl eq_refl) as (d & msg & Hrun & Herror & Hmethod).
  exists d.
  assert (Hmsg : msg = "RGB values must be between 0 and 255").
  { assert (H : Raise (ValueError msg)
                = @Raise json (ValueError "RGB values must be between 0 and 255")).
    { rewrite <- Hmethod. vm_compute. reflexivity. }
    injection H as ->. reflexivity. }
  rewrite Hmsg in Herror, Hmethod. auto.
Defined.

(** X6.  Whatever the arguments and the network, the only exception a
    tool ever reports is the [AttributeError] of a reply that is not a
    dictionary: the range checks of the methods are never reached with a
    value they reject, and no key is read that was not tested for. *)
Theorem tools_report_only_attribute_errors (net : network) (t : Server.tool)
    (s : state) :
  exists d,
    fst (Server.invoke net t s) = Ret d
    /\ forall e,
         reported_exception d = Some e ->
         exists v, e = AttributeError
                         ("'" ++ type_name v ++ "' object has no attribute 'get'").
Proof.
  destruct (tool_in_range t) eqn:Hrange.
  - destruct (tool_call t) as [c|] eqn:Hcall.
    + destruct (invoke_in_range net t c s Hcall Hrange) as (d & Hrun & Hfields).
      exists d. rewrite Hrun. split; [reflexivity|].
      rewrite verdict_by_unreadable in Hfields.
      destruct (unreadable _) as [v|].
      * destruct Hfields as (_ & _ & Hreported). rewrite Hreported.
        intros e [= <-]. exists v. reflexivity.
      * destruct Hfields as (_ & _ & Herror). unfold reported_exception.
        rewrite Herror. discriminate.
    + destruct t; try discriminate Hcall; cbn [Server.invoke].
      * rewrite get_bulb_status_run. cbn [fst]. eexists. split; [reflexivity|].
        destruct (reply_of _) as [| | | | | |reply]; cbn [Status.report];
          [ discriminate
          | intros e [= <-]; eexists; reflexivity ..
          | ].
        destruct (reply !! "result") as [[| | | | | |r]|];
          [ intros e [= <-]; eexists; reflexivity ..
          |
          | discriminate ].
        intros e.
        unfold reported_exception, Status.interpretation, Status.with_scene,
          Status.with_color, Status.with_brightness.
        destruct (r !! "dimming"), (r !! "r"), (r !! "g"), (r !! "b"),
          (r !! "temp"), (r !! "sceneId"); discriminate.
      * unfold Server.check_bulb_connection, try_except.
        cbv beta zeta delta [bind]. rewrite is_online_run.
        eexists. split; [reflexivity|]. discriminate.
  - destruct (invoke_out_of_range net t s Hrange) as (d & msg & Hrun & Herror & _).
    exists d. rewrite Hrun. split; [reflexivity|].
    unfold reported_exception. rewrite Herror. discriminate.
Qed.

(** ** Scenes *)

Lemma scene_names_cover (scene_id : Z) :
  between 1 32 scene_id = true ->
  is_Some (Server.scene_names !! scene_id).
Proof.
  unfold between. intros H. apply andb_prop in H as [Hlo Hhi].
  apply Z.leb_le in Hlo, Hhi.
  assert (Hn : scene_id = Z.of_nat (Z.to_nat scene_id)) by lia.
  assert (Hbound : (Z.to_nat scene_id <= 32)%nat) by lia.
  assert (Hpos : (1 <= Z.to_nat scene_id)%nat) by lia.
  rewrite Hn. clear Hn Hlo Hhi.
  generalize dependent (Z.to_nat scene_id). intros n Hbound Hpos.
  do 33 (destruct n as [|n]; [first [lia | eexists; vm_compute; reflexivity]|]).
  lia.
Qed.

(** X7.  Every scene identifier that [set_bulb_scene] accepts has a name
    in its table: the dictionary returned carries that name, and the
    fallback name built from the number is never used.  Outside the
    accepted range the table has no entry. *)
Theorem accepted_scene_has_a_name (net : network) (scene_id : Z) (s : state) :
  (between 1 32 scene_id = true ->
   exists d name,
     fst (Server.set_bulb_scene net scene_id s) = Ret d
     /\ Server.scene_names !! scene_id = Some name
     /\ (d !! "scene_name" = Some (PStr [Lit name])
         \/ is_Some (d !! "error")))
  /\ (between 1 32 scene_id = false -> Server.scene_names !! scene_id = None).
Proof.
  split.
  - intros Hrange.
    destruct (scene_names_cover scene_id Hrange) as [name Hname].
    unfold Server.set_bulb_scene, try_except.
    rewrite (between_true _ _ _ Hrange).
    cbv beta zeta delta [bind].
    change (set_scene net Server.bulb scene_id)
      with (perform net Server.bulb (SetScene scene_id)).
    rewrite (perform_run net Server.bulb (SetScene scene_id) s Hrange).
    rewrite Hname.
    destruct (verdict _) as [v|e]; cbv beta iota delta [ret fst];
      eexists _, name; (split; [reflexivity|]); (split; [reflexivity|]).
    + left. vm_compute. reflexivity.
    + right. eexists. vm_compute. reflexivity.
  - unfold between. intros H.
    destruct (Server.scene_names !! scene_id) as [name|] eqn:Hname; [|reflexivity].
    apply elem_of_list_to_map_2 in Hname.
    repeat (apply elem_of_cons in Hname as [[= -> _]|Hname];
            [vm_compute in H; discriminate H|]).
    apply elem_of_nil in Hname. destruct Hname.
Qed.

Lemma accepted_scene_has_a_name_witness :
  exists d,
    fst (Server.set_bulb_scene (answering success_reply) 32 initial_state) = Ret d
    /\ d !! "scene_name" = Some (PStr [Lit "Steampunk"]).
Proof.
  destruct (proj1 (accepted_scene_has_a_name (answering success_reply) 32
                     initial_state) eq_refl)
    as (d & name & Hrun & Hname & Hfield).
  exists d. split; [exact Hrun|].
  assert (H : Ret d = Ret (A := gmap string pyval)
                {[ "operation" := Server.str "set_scene";
                   "bulb_ip" := Server.str "192.168.1.8";
                   "success" := PVal (JBool true);
                   "scene_id" := Server.int 32;
                   "scene_name" := PStr [Lit "Steampunk"];
                   "message" := PStr [Lit "Scene set to '"; Lit "Steampunk";
                                      Lit "' (ID: "; Fmt (JInt 32); Lit ")"] ]}).
  { rewrite <- Hrun. vm_compute. reflexivity. }
  injection H as ->. vm_compute. reflexivity.
Defined.

(** ** The three states of a status report *)

Lemma interpretation_base (r : gmap string json) :
  Status.interpretation r !! "bulb_ip" = Some (Server.str Server.BULB_IP)
  /\ Status.interpretation r !! "status" = Some (Server.str "online")
  /\ Status.interpretation r !! "state" = Some (Status.power r)
  /\ Status.interpretation r !! "error" = None.
Proof.
  unfold Status.interpretation, Status.with_scene, Status.with_color,
    Status.with_brightness.
  destruct (r !! "dimming"), (r !! "r"), (r !! "g"), (r !! "b"),
    (r !! "temp"), (r !! "sceneId");
    repeat split; reflexivity.
Qed.

(** X8.  [get_bulb_status] always returns a dictionary that names the
    bulb and carries one of three statuses: [offline] when no reply came
    back (or the reply was [null]), [error] when the reply parsed to
    something that is not a dictionary or holds a non-dictionary under
    [result], and [online] otherwise.  The power [state] is present
    exactly in the online reports, an [error] text exactly in the
    others. *)
Theorem status_report_has_three_states (net : network) (s : state) :
  exists d,
    fst (Server.get_bulb_status net s) = Ret d
    /\ d !! "bulb_ip" = Some (PVal (JStr "192.168.1.8"))
    /\ status_of d
       = Some (match reply_of (exchange net s Server.bulb get_status_command) with
               | JNull => "offline"
               | reply =>
                   match unreadable reply with
                   | Some _ => "error"
                   | None => "online"
                   end
               end)
    /\ (is_Some (d !! "state") <-> status_of d = Some "online")
    /\ (is_Some (d !! "error") <-> status_of d <> Some "online").
Proof.
  rewrite get_bulb_status_run. cbn [fst]. eexists. split; [reflexivity|].
  assert (Hfailed : forall e,
             Status.failed e !! "bulb_ip" = Some (PVal (JStr "192.168.1.8"))
             /\ status_of (Status.failed e) = Some "error"
             /\ (is_Some (Status.failed e !! "state")
                 <-> status_of (Status.failed e) = Some "online")
             /\ (is_Some (Status.failed e !! "error")
                 <-> status_of (Status.failed e) <> Some "online")).
  { intros e. split; [reflexivity|]. split; [reflexivity|]. split.
    - split; [intros [? H]; discriminate H | discriminate].
    - split; [discriminate | eexists; reflexivity]. }
  assert (Honline : forall r,
             Status.interpretation r !! "bulb_ip"
             = Some (PVal (JStr "192.168.1.8"))
             /\ status_of (Status.interpretation r) = Some "online"
             /\ (is_Some (Status.interpretation r !! "state")
                 <-> status_of (Status.interpretation r) = Some "online")
             /\ (is_Some (Status.interpretation r !! "error")
                 <-> status_of (Status.interpretation r) <> Some "online")).
  { intros r. unfold status_of.
    destruct (interpretation_base r) as (-> & -> & -> & ->).
    split; [reflexivity|]. split; [reflexivity|]. split.
    - split; [reflexivity | eexists; reflexivity].
    - split; [intros [? H]; discriminate H | intros H; destruct H; reflexivity]. }
  destruct (reply_of _) as [| | | | | |reply]; cbn [Status.report unreadable];
    [ | exact (Hfailed _) .. | ].
  - split; [reflexivity|]. split; [reflexivity|]. split.
    + split; [intros [? H]; discriminate H | discriminate].
    + split; [discriminate | eexists; reflexivity].
  - destruct (reply !! "result") as [[| | | | | |r]|];
      [ exact (Hfailed _) .. | exact (Honline _) | exact (Honline _) ].
Qed.

(** ** What a status report depends on *)

(** X15.  A status report depends on seven fields of the [result]
    document only: two replies whose [result] documents agree on
    [state], [dimming], [r], [g], [b], [temp] and [sceneId] are reported
    alike, whatever else they carry. *)
Theorem status_reads_seven_fields (net net' : network) (s s' : state)
    (d d' r r' : gmap string json) :
  exchange net s Server.bulb get_status_command = Received (Doc (JDict d)) ->
  exchange net' s' Server.bulb get_status_command = Received (Doc (JDict d')) ->
  d !! "result" = Some (JDict r) ->
  d' !! "result" = Some (JDict r') ->
  (forall field, In field status_fields -> r !! field = r' !! field) ->
  fst (Server.get_bulb_status net s) = fst (Server.get_bulb_status net' s').
Proof.
  intros Hreply Hreply' Hresult Hresult' Hsame.
  rewrite !get_bulb_status_run. cbn [fst].
  rewrite Hreply, Hreply'. cbn [reply_of Status.report].
  rewrite Hresult, Hresult'.
  unfold Status.interpretation, Status.with_scene, Status.with_color,
    Status.with_brightness, Status.power.
  rewrite <- !Hsame by (unfold status_fields; cbn; auto 10).
  reflexivity.
Qed.

Lemma status_reads_seven_fields_witness :
  fst (Server.get_bulb_status
         (answering
            (JDict {[ "method" := JStr "getPilot";
                      "result" := JDict {[ "mac" := JStr "a8bb50000000";
                                           "rssi" := JInt (-60);
                                           "state" := JBool true;
                                           "temp" := JInt 4000;
                                           "dimming" := JInt 100 ]} ]}))
         initial_state)
  = fst (Server.get_bulb_status (answering white_reply) initial_state).
Proof.
  apply (status_reads_seven_fields _ _ _ _
           {[ "method" := JStr "getPilot";
              "result" := JDict {[ "mac" := JStr "a8bb50000000";
                                   "rssi" := JInt (-60);
                                   "state" := JBool true;
                                   "temp" := JInt 4000;
                                   "dimming" := JInt 100 ]} ]}
           {[ "result" := JDict {[ "temp" := JInt 4000; "dimming" := JInt 100;
                                   "state" := JBool true ]} ]}
           {[ "mac" := JStr "a8bb50000000"; "rssi" := JInt (-60);
              "state" := JBool true; "temp" := JInt 4000;
              "dimming" := JInt 100 ]}
           {[ "temp" := JInt 4000; "dimming" := JInt 100;
              "state" := JBool true ]});
    try reflexivity.
  intros field Hfield. unfold status_fields in Hfield. cbn [In] in Hfield.
  repeat (destruct Hfield as [<-|Hfield]; [reflexivity|]).
  destruct Hfield.
Defined.

(** X16.  The two status tools agree on one exchange: run from the same
    state, [check_bulb_connection] reports the bulb online exactly when
    [get_bulb_status] does not report it offline.  A reply that is not a
    dictionary makes the first say online and the second say error. *)
Theorem connection_and_status_agree (net : network) (s : state) :
  exists connection report,
    fst (Server.check_bulb_connection net s) = Ret connection
    /\ fst (Server.get_bulb_status net s) = Ret report
    /\ (connection !! "online" = Some (PVal (JBool true))
        <-> status_of report <> Some "offline")
    /\ (connection !! "online" = Some (PVal (JBool false))
        <-> status_of report = Some "offline").
Proof.
  rewrite get_bulb_status_run.
  unfold Server.check_bulb_connection, try_except.
  cbv beta zeta delta [bind]. rewrite is_online_run.
  cbv beta iota delta [ret fst].
  eexists _, _. split; [reflexivity|]. split; [reflexivity|].
  assert (Hfailed : forall e, status_of (Status.failed e) = Some "error")
    by reflexivity.
  assert (Honline : forall r, status_of (Status.interpretation r) = Some "online").
  { intros r. unfold status_of.
    destruct (interpretation_base r) as (_ & -> & _). reflexivity. }
  assert (Hyes : forall report : gmap string pyval,
             (status_of report = Some "error" \/ status_of report = Some "online") ->
             ((({[ "operation" := Server.str "check_connection";
                   "bulb_ip" := Server.str Server.BULB_IP;
                   "online" := PVal (JBool true);
                   "status" := Server.str "connected";
                   "message" := PStr [Lit "Bulb at "; Fmt (JStr Server.BULB_IP);
                                      Lit " is "; Lit "online"] ]}
                 : gmap string pyval) !! "online" = Some (PVal (JBool true))
               <-> status_of report <> Some "offline")
              /\ (({[ "operation" := Server.str "check_connection";
                      "bulb_ip" := Server.str Server.BULB_IP;
                      "online" := PVal (JBool true);
                      "status" := Server.str "connected";
                      "message" := PStr [Lit "Bulb at "; Fmt (JStr Server.BULB_IP);
                                         Lit " is "; Lit "online"] ]}
                    : gmap string pyval) !! "online" = Some (PVal (JBool false))
                  <-> status_of report = Some "offline"))).
  { intros report [H|H]; rewrite H; split; split;
      solve [ reflexivity | discriminate | intros _; reflexivity
            | intros _; discriminate ]. }
  destruct (reply_of _) as [| | | | | |reply];
    cbn [is_none negb Status.report];
    [ | apply Hyes; left; apply Hfailed .. | ].
  - split; split;
      solve [ discriminate | intros _; reflexivity
            | intros H; destruct H; reflexivity ].
  - apply Hyes.
    destruct (reply !! "result") as [[| | | | | |r]|];
      [ left; apply Hfailed .. | right; apply Honline | right; apply Honline ].
Qed.

(** ** What a tool puts on the wire *)

Lemma wire_after_exchange (net : network) (self : WizBulbController)
    (command : json) (s : state) :
  wire (after_exchange s self command (exchange net s self command))
  = (wire s
     ++ match net_socket net (created s),
              net_sendto net (created s) (Doc command) (bulb_ip self, port self)
        with
        | None, None => [datagram self command]
        | _, _ => []
        end)%list.
Proof.
  unfold after_exchange, exchange, destination. cbn [wire].
  destruct (net_socket net (created s)); [reflexivity|].
  destruct (net_sendto net (created s) _ _); [reflexivity|].
  destruct (net_recvfrom net _ _ _); reflexivity.
Qed.

(** X14.  A tool sends at most one datagram, and only to the configured
    bulb, 192.168.1.8 on port 38899: the command of the tool when its
    arguments are in range and the socket could be created and used,
    nothing when an argument is out of range.  This holds for the
    reports of failure too: a tool that reports an error may have sent
    its command. *)
Theorem tool_sends_its_command_once (net : network) (t : Server.tool)
    (s : state) :
  wire (snd (Server.invoke net t s))
  = (wire s
     ++ if tool_in_range t
        then
          match net_socket net (created s),
                net_sendto net (created s) (Doc (tool_command t))
                  ("192.168.1.8", 38899)
          with
          | None, None => [(Doc (tool_command t), ("192.168.1.8", 38899))]
          | _, _ => []
          end
        else [])%list.
Proof.
  destruct (tool_in_range t) eqn:Hrange.
  - destruct (tool_call t) as [c|] eqn:Hcall.
    + destruct (invoke_in_range net t c s Hcall Hrange) as (d & Hrun & _).
      destruct (tool_call_in_range t c Hcall) as [_ ->].
      rewrite Hrun. cbn [snd]. apply wire_after_exchange.
    + destruct t; try discriminate Hcall; cbn [Server.invoke tool_command].
      * rewrite get_bulb_status_run. cbn [snd]. apply wire_after_exchange.
      * unfold Server.check_bulb_connection, try_except.
        cbv beta zeta delta [bind]. rewrite is_online_run.
        cbv beta iota delta [ret snd]. apply wire_after_exchange.
  - destruct (invoke_out_of_range net t s Hrange) as (d & msg & Hrun & _).
    rewrite Hrun. cbn [snd]. rewrite app_nil_r. reflexivity.
Qed.

(** ** The scan, on any network *)

Lemma discover_loop_steps (net : network) (ips bulb_ips : list string)
    (s : state) :
  exists found l,
    fst (discover_loop net ips bulb_ips s) = Ret (bulb_ips ++ found)%list
    /\ sublist found ips
    /\ created (snd (discover_loop net ips bulb_ips s))
       = (created s + length ips)%nat
    /\ wire (snd (discover_loop net ips bulb_ips s)) = (wire s ++ l)%list
    /\ sublist l (map probe_datagram ips)
    /\ ((forall fd, net_socket net fd = None) ->
        (forall fd message addr, net_sendto net fd message addr = None) ->
        l = map probe_datagram ips).
Proof.
  revert bulb_ips s.
  induction ips as [|ip ips' IH]; intros bulb_ips s.
  - exists [], []. cbn. rewrite !app_nil_r, Nat.add_0_r.
    repeat split; constructor.
  - cbn [discover_loop]. cbv beta zeta delta [bind].
    rewrite is_online_run.
    set (o := exchange net s (init ip default_port 1.0%float) get_status_command).
    set (s1 := after_exchange s (init ip default_port 1.0%float) get_status_command o).
    assert (Hcreated : created s1 = S (created s)) by reflexivity.
    assert (Hwire : wire s1
                    = (wire s ++ sent_by (init ip default_port 1.0%float)
                                   get_status_command o)%list) by reflexivity.
    assert (Hsent : sublist (sent_by (init ip default_port 1.0%float) get_status_command o)
                      [probe_datagram ip]
                    /\ ((forall fd, net_socket net fd = None) ->
                        (forall fd message addr,
                            net_sendto net fd message addr = None) ->
                        sent_by (init ip default_port 1.0%float) get_status_command o
                        = [probe_datagram ip])).
    { subst o. unfold exchange. split.
      - destruct (net_socket net (created s)); [apply sublist_nil_l|].
        destruct (net_sendto net (created s) _ _); [apply sublist_nil_l|].
        destruct (net_recvfrom net _ _ _); reflexivity.
      - intros Hsocket Hsend. rewrite Hsocket, Hsend.
        destruct (net_recvfrom net _ _ _); reflexivity. }
    destruct Hsent as [Hsub Hfull].
    destruct (negb (is_none (reply_of o))).
    + cbv beta iota delta [print].
      match goal with
      | |- context [discover_loop net ips' ?acc ?st] =>
          destruct (IH acc st) as (found & l & Hrun & Hfound & Hc & Hw & Hl & Hall)
      end.
      cbn [created wire] in Hc, Hw.
      exists (ip :: found), (sent_by (init ip default_port 1.0%float) get_status_command o ++ l)%list.
      rewrite Hrun, Hc, Hw, Hcreated, Hwire, <- !app_assoc. cbn [length map].
      repeat split.
      * apply sublist_skip. exact Hfound.
      * lia.
      * change (probe_datagram ip :: map probe_datagram ips')
          with ([probe_datagram ip] ++ map probe_datagram ips')%list.
        apply sublist_app; assumption.
      * intros Hsocket Hsend.
        rewrite (Hfull Hsocket Hsend), (Hall Hsocket Hsend). reflexivity.
    + destruct (IH bulb_ips s1) as (found & l & Hrun & Hfound & Hc & Hw & Hl & Hall).
      exists found, (sent_by (init ip default_port 1.0%float) get_status_command o ++ l)%list.
      rewrite Hrun, Hc, Hw, Hcreated, Hwire, <- !app_assoc. cbn [length map].
      repeat split.
      * apply sublist_cons. exact Hfound.
      * lia.
      * change (probe_datagram ip :: map probe_datagram ips')
          with ([probe_datagram ip] ++ map probe_datagram ips')%list.
        apply sublist_app; assumption.
      * intros Hsocket Hsend.
        rewrite (Hfull Hsocket Hsend), (Hall Hsocket Hsend). reflexivity.
Qed.

(** X9.  On any network, the scan never raises, and the addresses it
    returns are candidates, in the order of the scan: a subsequence of
    what the regular expression found in the output of [nmap].  It asks
    for one socket for each candidate. *)
Theorem discovery_returns_candidates (net : network)
    (subprocess_run : list string -> Z -> exn + string)
    (network_range : string) (s : state) :
  exists bulb_ips,
    fst (discover_bulbs net subprocess_run network_range s) = Ret bulb_ips
    /\ match subprocess_run ["nmap"; "-sn"; network_range] 120 with
       | inr out =>
           sublist bulb_ips (Regex.findall Regex.ipv4 out)
           /\ created (snd (discover_bulbs net subprocess_run network_range s))
              = (created s + length (Regex.findall Regex.ipv4 out))%nat
       | inl _ => bulb_ips = []
       end.
Proof.
  unfold discover_bulbs, try_except, run.
  destruct (subprocess_run _ _) as [e|out].
  - exists []. destruct e; split; reflexivity.
  - cbv beta iota zeta delta [bind ret].
    destruct (discover_loop_steps net (Regex.findall Regex.ipv4 out) [] s)
      as (found & l & Hrun & Hfound & Hcreated & _).
    destruct (discover_loop net _ [] s) as [[bulb_ips|e] s'];
      cbn [fst snd] in *; [|discriminate Hrun].
    injection Hrun as ->. exists found. auto.
Qed.

(** X10.  When sockets can be created and datagrams sent, the scan sends
    one [getPilot] to each candidate, on port 38899, in the order of the
    candidates and whatever the replies: a candidate that answered is not
    probed again, nor is one that did not. *)
Theorem discovery_probes_each_candidate_once (net : network)
    (ips : list string) (s : state) :
  (forall fd, net_socket net fd = None) ->
  (forall fd message addr, net_sendto net fd message addr = None) ->
  wire (snd (discover_loop net ips [] s))
  = (wire s ++ map probe_datagram ips)%list.
Proof.
  intros Hsocket Hsend.
  destruct (discover_loop_steps net ips [] s)
    as (found & l & _ & _ & _ & Hwire & _ & Hall).
  rewrite Hwire, (Hall Hsocket Hsend). reflexivity.
Qed.

Lemma discovery_probes_each_candidate_once_witness :
  wire (snd (discover_loop silent ["10.0.0.7"; "10.0.0.9"] [] initial_state))
  = [(Doc get_status_command, ("10.0.0.7", 38899));
     (Doc get_status_command, ("10.0.0.9", 38899))].
Proof.
  apply (discovery_probes_each_candidate_once silent ["10.0.0.7"; "10.0.0.9"]
           initial_state);
    reflexivity.
Defined.

(** X11.  Whatever exception the sweep raises ([nmap] missing, any other
    failure), [discover_bulbs] returns the empty list, prints one line
    that depends on the exception, and probes nothing. *)
Theorem sweep_failure_returns_empty (net : network)
    (subprocess_run : list string -> Z -> exn + string)
    (network_range : string) (s : state) (e : exn) :
  subprocess_run ["nmap"; "-sn"; network_range] 120 = inl e ->
  discover_bulbs net subprocess_run network_range s
  = (Ret [],
     {| created := created s; sockets := sockets s; wire := wire s;
        stdout := stdout s ++ [sweep_failure_line e] |}).
Proof.
  intros Hrun. unfold discover_bulbs, try_except, run. rewrite Hrun.
  destruct e; reflexivity.
Qed.

Lemma sweep_failure_returns_empty_witness :
  discover_bulbs (answering white_reply)
    (fun _ _ => inl (FileNotFoundError "[Errno 2] No such file or directory: 'nmap'"))
    "192.168.1.0/24" initial_state
  = (Ret [],
     {| created := 0; sockets := ∅; wire := [];
        stdout := [[Lit "nmap not found. Please install nmap to use bulb discovery."]] |}).
Proof.
  apply (sweep_failure_returns_empty (answering white_reply)
           (fun _ _ => inl (FileNotFoundError "[Errno 2] No such file or directory: 'nmap'"))
           "192.168.1.0/24" initial_state
           (FileNotFoundError "[Errno 2] No such file or directory: 'nmap'")).
  reflexivity.
Defined.

(** ** The addresses the regular expression finds *)

Lemma rmatch_sound (r : Regex.regex) :
  forall prev s k rest,
    Regex.rmatch r prev s k = Some rest ->
    exists w s' prev',
      s = (w ++ s')%list /\ lang r w /\ k prev' s' = Some rest.
Proof.
  induction r as [p| |r1 IH1 r2 IH2|r IH lo hi]; intros prev s k rest Hmatch.
  - cbn [Regex.rmatch] in Hmatch.
    destruct s as [|c s']; [discriminate|].
    destruct (p c) eqn:Hp; [|discriminate].
    exists [c], s', (Some c). repeat split; [|exact Hmatch].
    exists c. auto.
  - cbn [Regex.rmatch] in Hmatch.
    destruct (xorb _ _); [|discriminate].
    exists [], s, prev. repeat split. exact Hmatch.
  - cbn [Regex.rmatch] in Hmatch.
    destruct (IH1 _ _ _ _ Hmatch) as (u & s1 & prev1 & -> & Hu & Hrest).
    destruct (IH2 _ _ _ _ Hrest) as (v & s2 & prev2 & -> & Hv & Hk).
    exists (u ++ v)%list, s2, prev2.
    rewrite <- app_assoc. repeat split; [|exact Hk].
    exists u, v. auto.
  - cbn [Regex.rmatch] in Hmatch.
    revert lo prev s Hmatch.
    induction hi as [|hi IHhi]; intros lo prev s Hmatch.
    + destruct lo; [|discriminate].
      exists [], s, prev. repeat split; [|exact Hmatch].
      exists []. repeat split; auto.
    + destruct (Regex.rmatch r prev s _) as [rest'|] eqn:Hstep.
      * injection Hmatch as ->.
        destruct (IH _ _ _ _ Hstep) as (w & s1 & prev1 & -> & Hw & Hrest).
        destruct (IHhi _ _ _ Hrest)
          as (w' & s2 & prev2 & -> & (ws & -> & Hws & Hlo & Hhi) & Hk).
        exists (w ++ concat ws)%list, s2, prev2.
        rewrite <- app_assoc. repeat split; [|exact Hk].
        exists (w :: ws). cbn [concat length].
        repeat split; [constructor; assumption|lia|lia].
      * destruct lo; [|discriminate].
        exists [], s, prev. repeat split; [|exact Hmatch].
        exists []. cbn. repeat split; auto; lia.
Qed.

Lemma lang_digits (w : list ascii) :
  lang (Regex.Repeat Regex.digit 1 3) w -> digits w.
Proof.
  intros (ws & -> & Hws & Hlo & Hhi).
  assert (H : Forall (fun c => Regex.is_digit c = true) (concat ws)
              /\ length (concat ws) = length ws).
  { clear Hlo Hhi. induction Hws as [|w ws (c & -> & Hc) _ [IH1 IH2]].
    - split; [constructor|reflexivity].
    - cbn. split; [constructor; assumption|congruence]. }
  destruct H as [Hall Hlen]. unfold digits. rewrite Hlen. auto.
Qed.

Lemma lang_dot (w : list ascii) :
  lang (Regex.chr ".") w -> w = ["."%char].
Proof.
  intros (c & -> & Hc). apply Ascii.eqb_eq in Hc. rewrite Hc. reflexivity.
Qed.

Lemma lang_ipv4 (w : list ascii) : lang Regex.ipv4 w -> dotted_quad w.
Proof.
  intros (u0 & v0 & -> & -> & u1 & v1 & -> & Hgroups & u2 & v2 & -> & Hd & ->).
  destruct Hgroups as (ws & -> & Hws & Hlo & Hhi).
  destruct ws as [|g1 [|g2 [|g3 [|g4 ws]]]]; cbn [length] in Hlo, Hhi; try lia.
  apply Forall_cons in Hws as [(a & x1 & -> & Ha & Hx1) Hws].
  apply Forall_cons in Hws as [(b & x2 & -> & Hb & Hx2) Hws].
  apply Forall_cons in Hws as [(c & x3 & -> & Hc & Hx3) _].
  apply lang_dot in Hx1, Hx2, Hx3. subst x1 x2 x3.
  apply lang_digits in Ha, Hb, Hc, Hd.
  exists a, b, c, u2. split; [|auto].
  cbn [concat app]. rewrite !app_nil_r, <- !app_assoc. reflexivity.
Qed.

Lemma scan_sound (r : Regex.regex) (s : list ascii) :
  forall prev skip w,
    In w (Regex.scan r prev s skip) ->
    lang r w /\ exists before after, s = (before ++ w ++ after)%list.
Proof.
  induction s as [|c s' IH]; intros prev skip w Hin; [destruct Hin|].
  assert (Hlater : forall prev' skip',
             In w (Regex.scan r prev' s' skip') ->
             lang r w
             /\ exists before after, c :: s' = (before ++ w ++ after)%list).
  { intros prev' skip' H.
    destruct (IH _ _ _ H) as (Hw & before & after & ->).
    split; [exact Hw|]. exists (c :: before), after. reflexivity. }
  cbn [Regex.scan] in Hin.
  destruct skip as [|n]; [|eapply Hlater; exact Hin].
  destruct (Regex.rmatch r prev (c :: s') _) as [rest|] eqn:Hmatch;
    [|eapply Hlater; exact Hin].
  destruct (rmatch_sound r _ _ _ _ Hmatch) as (m & s1 & _ & Hs & Hm & [= <-]).
  rewrite Hs in Hin.
  replace (length (m ++ s1) - length s1)%nat with (length m) in Hin
    by (rewrite length_app; lia).
  destruct (length m) as [|n] eqn:Hlen; [eapply Hlater; exact Hin|].
  destruct Hin as [<-|Hin]; [|eapply Hlater; exact Hin].
  rewrite <- Hlen, take_app_length.
  split; [exact Hm|]. exists [], s1. exact Hs.
Qed.

Lemma string_of_list_ascii_app (u v : list ascii) :
  string_of_list_ascii (u ++ v)
  = (string_of_list_ascii u ++ string_of_list_ascii v)%string.
Proof. induction u as [|c u IH]; cbn; [|rewrite IH]; reflexivity. Qed.

(** X12.  Every candidate that the regular expression of [discover_bulbs]
    finds in a text is a dotted quad cut out of that text: four groups of
    one to three decimal digits separated by dots.  Nothing bounds a
    group by 255. *)
Theorem candidates_are_dotted_quads (text ip : string) :
  In ip (Regex.findall Regex.ipv4 text) ->
  dotted_quad (list_ascii_of_string ip)
  /\ exists before after,
       text = (before ++ ip ++ after)%string.
Proof.
  unfold Regex.findall. intros Hin.
  apply in_map_iff in Hin as (w & <- & Hin).
  destruct (scan_sound _ _ _ _ _ Hin) as (Hw & before & after & Htext).
  rewrite list_ascii_of_string_of_list_ascii.
  split; [apply lang_ipv4; exact Hw|].
  exists (string_of_list_ascii before), (string_of_list_ascii after).
  rewrite <- (string_of_list_ascii_of_string text), Htext.
  rewrite !string_of_list_ascii_app. reflexivity.
Qed.

Lemma candidates_are_dotted_quads_witness :
  dotted_quad (list_ascii_of_string "10.0.0.256").
Proof.
  apply (candidates_are_dotted_quads "host 10.0.0.256 is up" "10.0.0.256").
  vm_compute. auto.
Defined.

(** ** The demonstration *)

Section Confined.

Variable addr : address.
Variable P : exn -> Prop.

Lemma confined_ret {A} (a : A) : confined addr 0 P (ret a).
Proof.
  intros s. split; [|discriminate].
  exists []. cbn. rewrite app_nil_r. auto.
Qed.

Lemma confined_print (line : fstring) : confined addr 0 P (print line).
Proof.
  intros s. split; [|discriminate].
  exists []. cbn. rewrite app_nil_r. auto.
Qed.

Lemma confined_sleep (seconds : Z) : confined addr 0 P (sleep seconds).
Proof. apply confined_ret. Qed.

Lemma confined_weaken {A} (n n' : nat) (m : M A) :
  (n <= n')%nat -> confined addr n P m -> confined addr n' P m.
Proof.
  intros Hle Hm s. destruct (Hm s) as [(l & Hwire & Hall & Hlen) Hraise].
  split; [|exact Hraise]. exists l. repeat split; auto. lia.
Qed.

Lemma confined_bind {A B} (n1 n2 : nat) (m : M A) (k : A -> M B) :
  confined addr n1 P m ->
  (forall a, confined addr n2 P (k a)) ->
  confined addr (n1 + n2) P (bind m k).
Proof.
  intros Hm Hk s. unfold bind.
  destruct (Hm s) as [(l1 & Hwire1 & Hall1 & Hlen1) Hraise1].
  destruct (m s) as [[a|e] s1]; cbn [fst snd] in *.
  - destruct (Hk a s1) as [(l2 & Hwire2 & Hall2 & Hlen2) Hraise2].
    split; [|exact Hraise2].
    exists (l1 ++ l2)%list. rewrite Hwire2, Hwire1, <- app_assoc, length_app.
    repeat split; [apply Forall_app; auto|lia].
  - split; [|intros e' [= <-]; apply Hraise1; reflexivity].
    exists l1. repeat split; auto. lia.
Qed.

Lemma confined_if {A} (n : nat) (b : bool) (m1 m2 : M A) :
  confined addr n P m1 -> confined addr n P m2 ->
  confined addr n P (if b then m1 else m2).
Proof. destruct b; auto. Qed.

End Confined.

Lemma confined_send_command (net : network) (self : WizBulbController)
    (command : json) (P : exn -> Prop) :
  confined (bulb_ip self, port self) 1 P (_send_command net self command).
Proof.
  intros s. rewrite send_command_run. cbn [fst snd]. split; [|discriminate].
  exists (sent_by self command (exchange net s self command)).
  split; [reflexivity|].
  destruct (exchange net s self command); cbn;
    repeat split; auto; repeat constructor.
Qed.

Lemma confined_perform (net : network) (self : WizBulbController) (c : call) :
  in_range c = true ->
  confined (bulb_ip self, port self) 1 no_get_error (perform net self c).
Proof.
  intros Hrange s. rewrite perform_run by assumption. cbn [fst snd]. split.
  - exists (sent_by self (command_of c) (exchange net s self (command_of c))).
    split; [reflexivity|].
    destruct (exchange net s self (command_of c)); cbn;
      repeat split; auto; repeat constructor.
  - intros e. rewrite verdict_by_unreadable.
    destruct (unreadable _) as [v|]; [|discriminate].
    intros [= <-]. exists v. reflexivity.
Qed.

Lemma confined_is_online (net : network) (self : WizBulbController)
    (P : exn -> Prop) :
  confined (bulb_ip self, port self) 1 P (is_online net self).
Proof.
  change (is_online net self)
    with (bind (get_status net self)
            (fun status => ret (match status with JNull => false | _ => true end))).
  apply (confined_bind _ _ 1 0).
  - apply confined_send_command.
  - intros status. apply confined_ret.
Qed.

Lemma discover_bulbs_returns (net : network)
    (subprocess_run : list string -> Z -> exn + string)
    (network_range : string) (s : state) :
  exists bulb_ips s',
    discover_bulbs net subprocess_run network_range s = (Ret bulb_ips, s').
Proof.
  unfold discover_bulbs, try_except, run.
  destruct (subprocess_run _ _) as [e|out].
  - destruct e; eauto.
  - cbv beta iota zeta delta [bind ret].
    destruct (discover_loop_steps net (Regex.findall Regex.ipv4 out) [] s)
      as (found & l & Hrun & _).
    destruct (discover_loop net _ [] s) as [[bulb_ips|e] s'];
      cbn [fst] in Hrun; [eauto|discriminate Hrun].
Qed.

Lemma bind_run {A B} (m : M A) (k : A -> M B) (s : state) (a : A) (s' : state) :
  m s = (Ret a, s') -> bind m k s = k a s'.
Proof. unfold bind. intros ->. reflexivity. Qed.

Ltac confine :=
  repeat first
    [ apply confined_ret
    | apply confined_print
    | apply confined_sleep
    | apply (confined_bind _ _ 0 0)
    | apply confined_if ].

(** X13.  The demonstration runs the scan and then talks to one address
    only, the first the scan returned, on port 38899: it sends it at most
    ten datagrams, and none when the scan returned nothing, in which case
    it returns normally.  The arguments it passes are all in range: the
    only exception it can raise is the [AttributeError] of a reply that
    is not a dictionary. *)
Theorem main_talks_to_first_bulb (net : network)
    (subprocess_run : list string -> Z -> exn + string)
    (json_dumps_indent : json -> Z -> string) (s : state) :
  exists s0 bulb_ips s1 l,
    created s0 = created s /\ sockets s0 = sockets s /\ wire s0 = wire s
    /\ discover_bulbs net subprocess_run "192.168.1.0/24" s0 = (Ret bulb_ips, s1)
    /\ wire (snd (main net subprocess_run json_dumps_indent s))
       = (wire s1 ++ l)%list
    /\ (length l <= 10)%nat
    /\ match bulb_ips with
       | [] => l = [] /\ fst (main net subprocess_run json_dumps_indent s) = Ret tt
       | ip :: _ => Forall (fun p => snd p = (ip, 38899)) l
       end
    /\ (forall e,
           fst (main net subprocess_run json_dumps_indent s) = Raise e ->
           exists v,
             e = AttributeError
                   ("'" ++ type_name v ++ "' object has no attribute 'get'")).
Proof.
  unfold main.
  erewrite (bind_run (print _) _ s tt _ eq_refl).
  match goal with
  | |- context [bind (discover_bulbs _ _ _) _ ?st] => set (s0 := st)
  end.
  destruct (discover_bulbs_returns net subprocess_run "192.168.1.0/24" s0)
    as (bulb_ips & s1 & Hscan).
  rewrite (bind_run _ _ s0 bulb_ips s1 Hscan).
  exists s0, bulb_ips, s1.
  destruct bulb_ips as [|ip others].
  - exists []. rewrite app_nil_r.
    repeat split; try reflexivity; try assumption; [cbn; lia|discriminate].
  - match goal with
    | |- context [snd (?m s1)] =>
        assert (Hbody : confined (ip, default_port) (0 + (0 + (0 + 10)))
                          no_get_error m)
    end.
    { apply confined_bind; [apply confined_print|intros _].
      apply confined_bind; [confine|intros _].
      apply confined_bind; [apply confined_print|intros _].
      apply (confined_bind _ _ 1 9);
        [apply (confined_is_online net (init ip default_port default_timeout))|].
      intros online. apply confined_if.
      { apply (confined_weaken _ _ 0); [lia|confine]. }
      apply (confined_bind _ _ 0 9); [apply confined_print|intros _].
      apply (confined_bind _ _ 1 8);
        [apply (confined_send_command net (init ip default_port default_timeout))|].
      intros status.
      apply (confined_bind _ _ 0 8); [confine|intros _].
      apply (confined_bind _ _ 0 8); [apply confined_print|intros _].
      apply (confined_bind _ _ 0 8); [apply confined_print|intros _].
      apply (confined_bind _ _ 1 7);
        [exact (confined_perform net (init ip default_port default_timeout)
                  TurnOn eq_refl)|intros _].
      apply (confined_bind _ _ 0 7); [apply confined_sleep|intros _].
      apply (confined_bind _ _ 0 7); [apply confined_print|intros _].
      apply (confined_bind _ _ 1 6);
        [exact (confined_perform net (init ip default_port default_timeout)
                  (SetColorTemperature 4000 100) eq_refl)|intros _].
      apply (confined_bind _ _ 0 6); [apply confined_sleep|intros _].
      apply (confined_bind _ _ 0 6); [apply confined_print|intros _].
      apply (confined_bind _ _ 1 5);
        [exact (confined_perform net (init ip default_port default_timeout)
                  (SetRgbColor 255 0 0 80) eq_refl)|intros _].
      apply (confined_bind _ _ 0 5); [apply confined_sleep|intros _].
      apply (confined_bind _ _ 0 5); [apply confined_print|intros _].
      apply (confined_bind _ _ 1 4);
        [exact (confined_perform net (init ip default_port default_timeout)
                  (SetRgbColor 0 0 255 80) eq_refl)|intros _].
      apply (confined_bind _ _ 0 4); [apply confined_sleep|intros _].
      apply (confined_bind _ _ 0 4); [apply confined_print|intros _].
      apply (confined_bind _ _ 1 3);
        [exact (confined_perform net (init ip default_port default_timeout)
                  (SetRgbColor 0 255 0 80) eq_refl)|intros _].
      apply (confined_bind _ _ 0 3); [apply confined_sleep|intros _].
      apply (confined_bind _ _ 0 3); [apply confined_print|intros _].
      apply (confined_bind _ _ 1 2);
        [exact (confined_perform net (init ip default_port default_timeout)
                  (SetScene 2) eq_refl)|intros _].
      apply (confined_bind _ _ 0 2); [apply confined_sleep|intros _].
      apply (confined_bind _ _ 0 2); [apply confined_print|intros _].
      apply (confined_bind _ _ 1 1);
        [exact (confined_perform net (init ip default_port default_timeout)
                  (SetBrightness 30) eq_refl)|intros _].
      apply (confined_bind _ _ 0 1); [apply confined_sleep|intros _].
      apply (confined_bind _ _ 0 1); [apply confined_print|intros _].
      apply (confined_bind _ _ 1 0);
        [exact (confined_perform net (init ip default_port default_timeout)
                  TurnOff eq_refl)|intros _].
      apply confined_print. }
    destruct (Hbody s1) as [(l & Hwire & Hall & Hlen) Hraise].
    exists l. repeat split; auto.
Qed.

(** ** Examples *)

(** The addresses found in a report of [nmap -sn]: dotted quads between
    word boundaries, whatever the value of the numbers. *)
Example findall_in_nmap_report :
  Regex.findall Regex.ipv4
    "Nmap scan report for router.lan (192.168.1.1) Host is up (0.0020s latency). Nmap scan report for 192.168.1.8 x1.2.3.4 1.2.3.4.5 1234.1.1.1 1.1.1.1234 10.0.0.256"
  = ["192.168.1.1"; "192.168.1.8"; "1.2.3.4"; "10.0.0.256"].
Proof. vm_compute. reflexivity. Qed.

(** [set_bulb_scene 2] against a device that reports success. *)
Example scene_two_succeeds :
  fst (Server.set_bulb_scene (answering success_reply) 2 initial_state)
  = Ret {[ "operation" := Server.str "set_scene";
           "bulb_ip" := Server.str "192.168.1.8";
           "success" := PVal (JBool true);
           "scene_id" := Server.int 2;
           "scene_name" := PStr [Lit "Romance"];
           "message" := PStr [Lit "Scene set to '"; Lit "Romance"; Lit "' (ID: ";
                              Fmt (JInt 2); Lit ")"] ]}.
Proof. vm_compute. reflexivity. Qed.

(** The datagram [set_rgb_color 255 0 0 80] puts on the wire. *)
Example red_on_the_wire :
  wire (snd (set_rgb_color silent Server.bulb 255 0 0 80 initial_state))
  = [(Doc (JDict {[ "method" := JStr "setPilot";
                    "params" := JDict {[ "state" := JBool true;
                                         "r" := JInt 255; "g" := JInt 0;
                                         "b" := JInt 0; "dimming" := JInt 80 ]} ]}),
      ("192.168.1.8", 38899))].
Proof. vm_compute. reflexivity. Qed.

(** A reply that is not a dictionary makes a method raise, and the tool
    built on it return the error. *)
Example list_reply_raises :
  fst (turn_on (answering (JList [])) Server.bulb initial_state)
  = Raise (AttributeError "'list' object has no attribute 'get'")
  /\ (exists report,
         fst (Server.turn_bulb_on (answering (JList [])) initial_state)
         = Ret report
         /\ report !! "success" = Some (PVal (JBool false))
         /\ rendered (report !! "error")
            = Some "Error turning on bulb: 'list' object has no attribute 'get'").
Proof.
  split; [vm_compute; reflexivity|].
  eexists. repeat split; vm_compute; reflexivity.
Qed.
